(** * The Alfen HTTP charger client ([charger/alfenhttp.go])

    A shallow embedding of the charger client: the session handling
    ([ensureAuthenticated], [login], [logout]), the property reads behind the
    five second cache ([getProperties], [getProperty]), the property writes
    ([setProperty], [MaxCurrent], [Enable], [Phases1p3p], [Shutdown]) and the
    decoding of raw values ([Status], [Enabled], [GetMaxCurrent]).

    The device and the network are the environment: every HTTP exchange goes
    through one [RoundTrip] function on an abstract [World], and each request
    issued is appended to a [trace], so that "how many fetches, how many
    logins, in which order" are statements about lists.

    Outside the embedding: the mutex [c.mu], which only serialises callers
    (the embedding is of one caller at a time); the calls to the logger, which
    do not influence control flow (what ends up in the log is decided by
    [util.Logger] and by the logging round tripper of package [request]); the
    deferred [resp.Body.Close()], the body being taken as what the transport
    delivers to [io.ReadAll]; the remaining getters, which repeat the pattern
    of [GetMaxCurrent]. *)

From Stdlib Require Import ZArith List String Ascii Bool Lia Floats DecimalString.
From Stdlib Require Uint63.
Import ListNotations.

Open Scope string_scope.
Open Scope Z_scope.

(** ** Data model *)

(** A value decoded by [encoding/json] into an [interface{}]: numbers arrive as
    [float64], the other JSON kinds as below. *)
Inductive JSONValue : Type :=
| Float64 (f : float)
| Str (s : string)
| Boolean (b : bool)
| Nil
| Composite (raw : string).   (* a JSON array or object; never inspected here *)

Record Login : Type := {
  Username : string;
  Password : string
}.

Record Property : Type := {
  Id : string;
  Access : Z;
  Type_ : Z;
  Len : Z;
  Cat : string;
  Value : JSONValue
}.

Record Properties : Type := {
  Version : Z;
  PropertyList : list Property;   (* the Go field [Properties] *)
  Offset : Z;
  Total : Z
}.

Record PropertyRequest : Type := {
  pr_Id : string;
  pr_Value : string
}.

Record Info : Type := {
  Identity : string;
  ScnNetwork : string;
  FwVersion : string;
  LastConfig : Z;
  Model : string;
  ObjectId : string;
  info_Type : string
}.

(** Go [error] values.  Errors made by this file keep their arguments; errors
    coming from the HTTP client, from [io.ReadAll] and from [encoding/json] are
    opaque. *)
Inductive error : Type :=
| TransportError (msg : string)
| ReadError (msg : string)
| JSONError (msg : string)
| LoginFailed (status : string)              (* "login failed: %v" *)
| LogoutFailed (status : string)             (* "logout failed: %v" *)
| ErrorGettingProperties (status : string)   (* "error getting properties: %v" *)
| ErrorGettingInfo (status : string)         (* "error getting info: %v" *)
| UnhandledStatus (value : JSONValue)        (* "unhandled status: %s" *)
| UnableToGetProperty (id : string) (props : Properties).

(** A Go call either returns or panics (a failed type assertion). *)
Inductive outcome (A : Type) : Type :=
| Returns (a : A)
| Panics (msg : string).
Arguments Returns {A} a.
Arguments Panics {A} msg.

(** Modelled from the spec: [api.ChargeStatus] with the constants this file
    uses, declared in package [api], which is not part of the sources at hand.
    [StatusNone] is the empty status, [StatusA] no vehicle, [StatusB] vehicle
    connected and not charging, [StatusC] charging, [StatusE] error. *)
Inductive ChargeStatus : Type :=
| StatusNone
| StatusA
| StatusB
| StatusC
| StatusE.

(** ** HTTP requests and responses *)

Inductive HTTPMethod : Type := GET | POST.

(** The request body before serialisation: [encoding/json] produces the bytes,
    the client decides the content. *)
Inductive Payload : Type :=
| NoBody
| LoginBody (l : Login)
| PropertyBody (data : list (string * PropertyRequest)).

Record Request : Type := {
  req_method : HTTPMethod;
  req_url : string;
  req_contentType : string;
  req_body : Payload
}.

(** [Body] is what [io.ReadAll(resp.Body)] yields. *)
Record Response : Type := {
  StatusCode : Z;
  Status_line : string;    (* the Go field [Status], e.g. "401 Unauthorized" *)
  Body : string + error
}.

(** The environment of the client: the network with the device behind it, and
    the two JSON decoders of [encoding/json]. *)
Class Device : Type := {
  World : Type;
  RoundTrip : Request -> World -> (Response + error) * World;
  unmarshalProperties : string -> Properties + error;
  unmarshalInfo : string -> Info + error
}.

(** ** Constants of the source *)

Definition available : Z := 4.
Definition cableConnected : Z := 7.
Definition evConnected : Z := 8.
Definition preparingCharging : Z := 9.
Definition waitVehicleCharging : Z := 10.
Definition chargingNormal : Z := 11.
Definition finishWaitVehicle : Z := 16.
Definition finishWaitDisconnect : Z := 17.
Definition errorCharging : Z := 21.
Definition errorTooManyRestarts : Z := 26.
Definition inoperative : Z := 34.
Definition loadBalancingForcedOff : Z := 36.

(** The codes that the [switch] in [Status] has a case for. *)
Definition statusCodes : list Z :=
  [ available; cableConnected; evConnected; preparingCharging;
    waitVehicleCharging; finishWaitVehicle; finishWaitDisconnect;
    loadBalancingForcedOff; chargingNormal; errorCharging;
    errorTooManyRestarts; inoperative ].

Definition bootups := "2056_0".
Definition bootReason := "2057_0".
Definition uptime := "2060_0".
Definition maxStationCurrent := "2062_0".
Definition voltageL1Socket1 := "2221_3".
Definition voltageL2Socket1 := "2221_4".
Definition voltageL3Socket1 := "2221_5".
Definition activePowerTotal := "2221_16".
Definition meterReadingSocket1 := "2221_22".
Definition currentL1Socket1 := "2221_A".
Definition currentL2Socket1 := "2221_B".
Definition currentL3Socket1 := "2221_C".
Definition state := "2501_2".
Definition connector1MaxAllowedPhases := "312E_0".

Definition readProps : list string :=
  [ bootups; bootReason; uptime; maxStationCurrent;
    voltageL1Socket1; voltageL2Socket1; voltageL3Socket1;
    activePowerTotal; meterReadingSocket1;
    currentL1Socket1; currentL2Socket1; currentL3Socket1;
    state; connector1MaxAllowedPhases ].

Definition loadBalancingEnablePhaseSwitching := "2185_0".
Definition installationMaxAllowedPhases := "2189_0".

Definition statusOn := "1".

Definition switchOffCurrent : Z := 5.
Definition maxCurrent : Z := 16.

Definition alfenContentType := "alfen/json; charset=utf-8".

(** [time.Second], in nanoseconds as [time.Duration] counts them. *)
Definition Second : Z := 1000000000.

(** The interval given to [util.Cached] in [NewAlfenHttp]: [time.Second*5]. *)
Definition refreshInterval : Z := Second * 5.

(** ** Small library functions the client calls *)

(** The conversion [float64(n)] of an integer (of magnitude below 2^63), also
    applied by the compiler to the untyped constants of the [switch] in
    [Status]. *)
Definition float64 (n : Z) : float :=
  if n <? 0 then PrimFloat.opp (PrimFloat.of_uint63 (Uint63.of_Z (- n)))
  else PrimFloat.of_uint63 (Uint63.of_Z n).

(** [fmt.Sprint] of an integer: its decimal digits. *)
Definition Sprint (n : Z) : string := NilZero.string_of_int (Z.to_int n).

(** [strings.Join]. *)
Definition Join (elems : list string) (sep : string) : string :=
  String.concat sep elems.

Definition inCutset (cutset : string) (ch : ascii) : bool :=
  existsb (Ascii.eqb ch) (list_ascii_of_string cutset).

(** [strings.TrimRight]: drops the trailing characters that are in [cutset]. *)
Fixpoint TrimRight (s cutset : string) : string :=
  match s with
  | EmptyString => EmptyString
  | String ch rest =>
      match TrimRight rest cutset with
      | EmptyString => if inCutset cutset ch then EmptyString else String ch EmptyString
      | kept => String ch kept
      end
  end.

(** [strings.HasSuffix] for a one-character suffix. *)
Fixpoint endsWith (s : string) (ch : ascii) : bool :=
  match s with
  | EmptyString => false
  | String last EmptyString => Ascii.eqb last ch
  | String _ rest => endsWith rest ch
  end.

(** [strings.Repeat] of one character. *)
Fixpoint repeatChar (ch : ascii) (n : nat) : string :=
  match n with
  | O => EmptyString
  | S m => String ch (repeatChar ch m)
  end.

(** ** The client and its state *)

(** The immutable fields of the Go struct [AlfenHttp]. *)
Record AlfenHttp : Type := {
  uri : string;
  password : string
}.

(** The memo behind [getPropertiesG]. *)
Record CacheState : Type := {
  lastSnapshot : option Properties;
  lastFetchTime : Z
}.

Definition emptyCache : CacheState :=
  {| lastSnapshot := None; lastFetchTime := 0 |}.

Section Monad.

Context {D : Device}.

(** What a call can read and change: the environment, the requests sent so
    far, the memo of the property cache, and the clock (nanoseconds). *)
Record St : Type := {
  world : World;
  trace : list Request;
  cache : CacheState;
  clock : Z
}.

(** A state monad for the calls. *)
Definition M (A : Type) : Type := St -> A * St.

Definition ret {A : Type} (a : A) : M A := fun s => (a, s).

Definition bind {A B : Type} (m : M A) (k : A -> M B) : M B :=
  fun s => let (a, s') := m s in k a s'.

End Monad.

Notation "x <- m ;; k" := (bind m (fun x => k))
  (at level 61, m at next level, right associativity).
Notation "m ;;; k" := (bind m (fun _ => k))
  (at level 61, right associativity).

Section Client.

Context {D : Device}.

Definition setCache (cs : CacheState) : M unit :=
  fun s => (tt, {| world := world s; trace := trace s; cache := cs; clock := clock s |}).

(** One HTTP exchange: the request is recorded and the environment answers. *)
Definition httpDo (req : Request) : M (Response + error) :=
  fun s =>
    let (r, w') := RoundTrip req (world s) in
    (r, {| world := w'; trace := trace s ++ [req]; cache := cache s; clock := clock s |}).

(** [http.Client.Get] and [http.Client.Post]. *)
Definition Get (url : string) : M (Response + error) :=
  httpDo {| req_method := GET; req_url := url; req_contentType := ""; req_body := NoBody |}.

Definition Post (url contentType : string) (body : Payload) : M (Response + error) :=
  httpDo {| req_method := POST; req_url := url; req_contentType := contentType; req_body := body |}.

(** *** Session handling *)

Definition processResponse (resp : Response) (err : option error) : string * option error :=
  match err with
  | Some e => ("", Some e)
  | None =>
      match Body resp with
      | inr e => ("", Some e)
      | inl body => (body, None)
      end
  end.

Definition login_request (c : AlfenHttp) : Request :=
  {| req_method := POST;
     req_url := uri c ++ "/api/login";
     req_contentType := alfenContentType;
     req_body := LoginBody {| Username := "admin"; Password := password c |} |}.

Definition login (c : AlfenHttp) : M (option error) :=
  let login := {| Username := "admin"; Password := password c |} in
  r <- Post (uri c ++ "/api/login") alfenContentType (LoginBody login) ;;
  match r with
  | inr err => ret (Some err)
  | inl resp =>
      if negb (StatusCode resp =? 200)
      then ret (Some (LoginFailed (Status_line resp)))
      else ret (snd (processResponse resp None))
  end.

Definition logout_request (c : AlfenHttp) : Request :=
  {| req_method := POST;
     req_url := uri c ++ "/api/logout";
     req_contentType := alfenContentType;
     req_body := NoBody |}.

Definition logout (c : AlfenHttp) : M (option error) :=
  r <- Post (uri c ++ "/api/logout") alfenContentType NoBody ;;
  match r with
  | inr err => ret (Some err)
  | inl resp =>
      if negb (StatusCode resp =? 200)
      then ret (Some (LogoutFailed (Status_line resp)))
      else ret (snd (processResponse resp None))
  end.

Definition ensureAuthenticated (c : AlfenHttp) (method : M (Response + error))
  : M (Response + error) :=
  r <- method ;;
  match r with
  | inr err => ret (inr err)
  | inl resp =>
      if StatusCode resp =? 401
      then
        e <- login c ;;
        match e with
        | Some err => ret (inr err)
        | None =>
            r' <- method ;;
            match r' with
            | inr err => ret (inr err)
            | inl resp' => ret (inl resp')
            end
        end
      else ret (inl resp)
  end.

(** *** Reading properties *)

Definition getProperties_request (c : AlfenHttp) : Request :=
  {| req_method := GET;
     req_url := uri c ++ "/api/prop?ids=" ++ Join readProps ",";
     req_contentType := "";
     req_body := NoBody |}.

Definition getProperties (c : AlfenHttp) : M (Properties + error) :=
  r <- ensureAuthenticated c (Get (uri c ++ "/api/prop?ids=" ++ Join readProps ",")) ;;
  match r with
  | inr err => ret (inr err)
  | inl resp =>
      if negb (StatusCode resp =? 200)
      then ret (inr (ErrorGettingProperties (Status_line resp)))
      else
        match Body resp with
        | inr err => ret (inr err)
        | inl body =>
            match unmarshalProperties body with
            | inr err => ret (inr err)
            | inl props => ret (inl props)
            end
        end
  end.

(** Modelled from the spec: the memo kept by [util.Cached] after a successful
    refresh -- the snapshot and the time of the refresh.  ([util.Cached] is in
    package [util], which is not part of the sources at hand.) *)
Definition remember (snapshot : Properties) (s : St) : St :=
  {| world := world s; trace := trace s;
     cache := {| lastSnapshot := Some snapshot; lastFetchTime := clock s |};
     clock := clock s |}.

(** Modelled from the spec: one refresh of [util.Cached].  Section 4.2: a
    successful refresh is memoized; a refresh failure is returned and is not
    cached. *)
Definition refreshAndStore (g : M (Properties + error)) : M (Properties + error) :=
  r <- g ;;
  match r with
  | inl snapshot => fun s => (inl snapshot, remember snapshot s)
  | inr err => ret (inr err)
  end.

(** Modelled from the spec: [util.Cached], the memoising wrapper of package
    [util], which is not part of the sources at hand.  Section 4.2: if the last
    successful refresh is younger than the interval, the memoized snapshot is
    returned without any network call; if the memoized snapshot is stale or
    absent, one refresh is performed. *)
Definition Cached (g : M (Properties + error)) (interval : Z) : M (Properties + error) :=
  fun s =>
    match lastSnapshot (cache s) with
    | Some snapshot =>
        if clock s - lastFetchTime (cache s) <? interval
        then (inl snapshot, s)
        else refreshAndStore g s
    | None => refreshAndStore g s
    end.

(** The field [getPropertiesG], as [NewAlfenHttp] sets it. *)
Definition getPropertiesG (c : AlfenHttp) : M (Properties + error) :=
  Cached (getProperties c) refreshInterval.

(** The loop of [getProperty]: the value of the first property with this id. *)
Fixpoint findProperty (id : string) (props : list Property) : option JSONValue :=
  match props with
  | [] => None
  | prop :: rest => if String.eqb (Id prop) id then Some (Value prop) else findProperty id rest
  end.

Definition getProperty (c : AlfenHttp) (id : string) : M (JSONValue * option error) :=
  r <- getPropertiesG c ;;
  match r with
  | inr err => ret (Str "", Some err)
  | inl props =>
      match findProperty id (PropertyList props) with
      | Some v => ret (v, None)
      | None => ret (Str "", Some (UnableToGetProperty id props))
      end
  end.

(** *** Writing properties *)

Definition setProperty_request (c : AlfenHttp) (property value : string) : Request :=
  {| req_method := POST;
     req_url := uri c ++ "/api/prop";
     req_contentType := alfenContentType;
     req_body := PropertyBody [(property, {| pr_Id := property; pr_Value := value |})] |}.

(** [json.Marshal] cannot fail on a map from strings to structs of strings, so
    the early return on its error is never taken. *)
Definition setProperty (c : AlfenHttp) (property value : string) : M (option error) :=
  let data := [(property, {| pr_Id := property; pr_Value := value |})] in
  r <- ensureAuthenticated c (Post (uri c ++ "/api/prop") alfenContentType (PropertyBody data)) ;;
  match r with
  | inr err => ret (Some err)
  | inl _ => ret None
  end.

Definition MaxCurrent (c : AlfenHttp) (current : Z) : M (option error) :=
  setProperty c maxStationCurrent (Sprint current).

Definition Enable (c : AlfenHttp) (enable : bool) : M (option error) :=
  if enable then MaxCurrent c maxCurrent else MaxCurrent c switchOffCurrent.

Definition Phases1p3p (c : AlfenHttp) (phases : Z) : M (option error) :=
  err <- setProperty c loadBalancingEnablePhaseSwitching statusOn ;;
  match err with
  | Some e => ret (Some e)
  | None => setProperty c installationMaxAllowedPhases (Sprint phases)
  end.

Definition Shutdown (c : AlfenHttp) : M unit :=
  Phases1p3p c 3 ;;;
  MaxCurrent c maxCurrent ;;;
  logout c ;;;
  ret tt.

Definition getInfo_request (c : AlfenHttp) : Request :=
  {| req_method := GET;
     req_url := uri c ++ "/api/info";
     req_contentType := "";
     req_body := NoBody |}.

Definition getInfo (c : AlfenHttp) : M (Info + error) :=
  r <- ensureAuthenticated c (Get (uri c ++ "/api/info")) ;;
  match r with
  | inr err => ret (inr err)
  | inl resp =>
      if negb (StatusCode resp =? 200)
      then ret (inr (ErrorGettingInfo (Status_line resp)))
      else
        match Body resp with
        | inr err => ret (inr err)
        | inl body =>
            match unmarshalInfo body with
            | inr err => ret (inr err)
            | inl info => ret (inl info)
            end
        end
  end.

(** *** Decoding raw values *)

(** [f == float64(k)] for one of the constants [k] of a [case] list. *)
Definition isCase (f : float) (codes : list Z) : bool :=
  existsb (fun k => PrimFloat.eqb f (float64 k)) codes.

(** The body of [Status] after the read: the [switch] on [value.(float64)],
    whose cases are tried from top to bottom. *)
Definition Status_of (value : JSONValue) (err : option error)
  : outcome (ChargeStatus * option error) :=
  match err with
  | Some e => Returns (StatusNone, Some e)
  | None =>
      match value with
      | Float64 f =>
          if isCase f [available] then Returns (StatusA, None)
          else if isCase f [cableConnected; evConnected; preparingCharging;
                            waitVehicleCharging; finishWaitVehicle;
                            finishWaitDisconnect; loadBalancingForcedOff]
          then Returns (StatusB, None)
          else if isCase f [chargingNormal] then Returns (StatusC, None)
          else if isCase f [errorCharging; errorTooManyRestarts; inoperative]
          then Returns (StatusE, None)
          else Returns (StatusNone, Some (UnhandledStatus value))
      | _ => Panics "interface conversion: interface {} is not float64"
      end
  end.

Definition Status (c : AlfenHttp) : M (outcome (ChargeStatus * option error)) :=
  r <- getProperty c state ;;
  ret (Status_of (fst r) (snd r)).

(** The body of [Enabled] after the read. *)
Definition Enabled_of (value : JSONValue) (err : option error)
  : outcome (bool * option error) :=
  match err with
  | Some e => Returns (false, Some e)
  | None =>
      match value with
      | Float64 f => Returns (PrimFloat.ltb (float64 switchOffCurrent) f, None)
      | _ => Panics "interface conversion: interface {} is not float64"
      end
  end.

Definition Enabled (c : AlfenHttp) : M (outcome (bool * option error)) :=
  r <- getProperty c maxStationCurrent ;;
  ret (Enabled_of (fst r) (snd r)).

Definition GetMaxCurrent (c : AlfenHttp) : M (outcome (float * option error)) :=
  r <- getProperty c maxStationCurrent ;;
  match snd r with
  | Some e => ret (Returns (PrimFloat.zero, Some e))
  | None =>
      match fst r with
      | Float64 f => ret (Returns (f, None))
      | _ => ret (Panics "interface conversion: interface {} is not float64")
      end
  end.

Definition CurrentPower (c : AlfenHttp) : M (outcome (float * option error)) :=
  r <- getProperty c activePowerTotal ;;
  match snd r with
  | Some e => ret (Returns (PrimFloat.zero, Some e))
  | None =>
      match fst r with
      | Float64 f => ret (Returns (f, None))
      | _ => ret (Panics "interface conversion: interface {} is not float64")
      end
  end.

(** The meter reading is divided by 1000. *)
Definition TotalEnergy (c : AlfenHttp) : M (outcome (float * option error)) :=
  r <- getProperty c meterReadingSocket1 ;;
  match snd r with
  | Some e => ret (Returns (PrimFloat.zero, Some e))
  | None =>
      match fst r with
      | Float64 f => ret (Returns (PrimFloat.div f 1000, None))
      | _ => ret (Panics "interface conversion: interface {} is not float64")
      end
  end.

(** The last line of [Currents] and of [Voltages]: the three type assertions,
    made only once all three reads have succeeded. *)
Definition threeFloats (v1 v2 v3 : JSONValue)
  : outcome (float * float * float * option error) :=
  match v1, v2, v3 with
  | Float64 f1, Float64 f2, Float64 f3 => Returns (f1, f2, f3, None)
  | _, _, _ => Panics "interface conversion: interface {} is not float64"
  end.

(** The shape shared by [Currents] and [Voltages]: three reads in a row, each
    followed by an early return on its error. *)
Definition readThree (c : AlfenHttp) (id1 id2 id3 : string)
  : M (outcome (float * float * float * option error)) :=
  r1 <- getProperty c id1 ;;
  match snd r1 with
  | Some e => ret (Returns (PrimFloat.zero, PrimFloat.zero, PrimFloat.zero, Some e))
  | None =>
      r2 <- getProperty c id2 ;;
      match snd r2 with
      | Some e => ret (Returns (PrimFloat.zero, PrimFloat.zero, PrimFloat.zero, Some e))
      | None =>
          r3 <- getProperty c id3 ;;
          match snd r3 with
          | Some e => ret (Returns (PrimFloat.zero, PrimFloat.zero, PrimFloat.zero, Some e))
          | None => ret (threeFloats (fst r1) (fst r2) (fst r3))
          end
      end
  end.

Definition Currents (c : AlfenHttp) : M (outcome (float * float * float * option error)) :=
  readThree c currentL1Socket1 currentL2Socket1 currentL3Socket1.

Definition Voltages (c : AlfenHttp) : M (outcome (float * float * float * option error)) :=
  readThree c voltageL1Socket1 voltageL2Socket1 voltageL3Socket1.

(** *** Construction *)

(** [NewAlfenHttp]: a client with a trimmed address and an empty memo, logged
    in once.  (The registration of [Shutdown] with the process is outside.) *)
Definition NewAlfenHttp (uri password : string) : M (AlfenHttp + error) :=
  let c := {| uri := TrimRight uri "/"; password := password |} in
  setCache emptyCache ;;;
  err <- login c ;;
  match err with
  | Some e => ret (inr e)
  | None => ret (inl c)
  end.

End Client.

(** ** A scripted device

    A concrete environment for running the client: the world is the list of
    answers still to be given, one per request; when the script is exhausted
    the connection fails.  The decoder knows three bodies. *)

Definition respond (code : Z) (status body : string) : Response + error :=
  inl {| StatusCode := code; Status_line := status; Body := inl body |}.

Definition ok200 (body : string) : Response + error := respond 200 "200 OK" body.
Definition unauthorized : Response + error := respond 401 "401 Unauthorized" "".
Definition serverError : Response + error := respond 500 "500 Internal Server Error" "".
Definition refused : Response + error := inr (TransportError "connection refused").

Definition numberProperty (id : string) (f : float) : Property :=
  {| Id := id; Access := 1; Type_ := 2; Len := 0; Cat := "generic"; Value := Float64 f |}.

Definition snapshotOf (props : list Property) : Properties :=
  {| Version := 2; PropertyList := props; Offset := 0; Total := Z.of_nat (List.length props) |}.

Definition chargingSnapshot : Properties :=
  snapshotOf [numberProperty maxStationCurrent 16; numberProperty state 11].

Definition pausedSnapshot : Properties :=
  snapshotOf [numberProperty maxStationCurrent 5; numberProperty state 8].

Definition oddSnapshot : Properties :=
  snapshotOf [numberProperty maxStationCurrent 16; numberProperty state 999].

Definition scriptedRoundTrip (req : Request) (w : list (Response + error))
  : (Response + error) * list (Response + error) :=
  match w with
  | [] => (refused, [])
  | r :: rest => (r, rest)
  end.

Definition scriptedUnmarshal (body : string) : Properties + error :=
  if String.eqb body "charging" then inl chargingSnapshot
  else if String.eqb body "paused" then inl pausedSnapshot
  else if String.eqb body "odd" then inl oddSnapshot
  else inr (JSONError "unexpected end of JSON input").

Definition scripted : Device :=
  {| World := list (Response + error);
     RoundTrip := scriptedRoundTrip;
     unmarshalProperties := scriptedUnmarshal;
     unmarshalInfo := fun _ => inr (JSONError "unexpected end of JSON input") |}.

Definition wallbox : AlfenHttp := {| uri := "https://wallbox"; password := "secret" |}.

(** The two requests the runs below send most. *)
Definition bulkRead : Request := getProperties_request wallbox.
Definition write16A : Request := setProperty_request wallbox maxStationCurrent "16".

(** The scripted client before any request, at clock 0, with this script. *)
Definition fresh (script : list (Response + error)) : @St scripted :=
  @Build_St scripted script [] emptyCache 0.

(** The environment between two calls: [dt] nanoseconds pass and the device
    is given further answers to play. *)
Definition later (dt : Z) (script : list (Response + error)) (s : @St scripted)
  : @St scripted :=
  @Build_St scripted (world s ++ script)%list (trace s) (cache s) (clock s + dt).

(** A second scripted device, whose decoder also knows a snapshot that holds
    the first phase only. *)
Definition phase1Snapshot : Properties :=
  snapshotOf [numberProperty currentL1Socket1 6; numberProperty voltageL1Socket1 230].

Definition scriptedPhases : Device :=
  {| World := list (Response + error);
     RoundTrip := scriptedRoundTrip;
     unmarshalProperties :=
       fun body => if String.eqb body "phase1" then inl phase1Snapshot
                   else scriptedUnmarshal body;
     unmarshalInfo := fun _ => inr (JSONError "unexpected end of JSON input") |}.

Definition freshPhases (script : list (Response + error)) : @St scriptedPhases :=
  @Build_St scriptedPhases script [] emptyCache 0.

(** ** The small functions on concrete inputs *)

Example TrimRight_slashes : TrimRight "https://wallbox//" "/" = "https://wallbox".
Proof. reflexivity. Qed.

Example TrimRight_inner_slash : TrimRight "http://10.0.0.7/" "/" = "http://10.0.0.7".
Proof. reflexivity. Qed.

Example Sprint_maxCurrent : Sprint maxCurrent = "16".
Proof. reflexivity. Qed.

Example Sprint_negative : Sprint (-3) = "-3".
Proof. reflexivity. Qed.

Example float64_switchOffCurrent : float64 switchOffCurrent = 5%float.
Proof. reflexivity. Qed.

Example bulkRead_url :
  req_url bulkRead
  = "https://wallbox/api/prop?ids=2056_0,2057_0,2060_0,2062_0,2221_3,2221_4,2221_5,2221_16,2221_22,2221_A,2221_B,2221_C,2501_2,312E_0".
Proof. reflexivity. Qed.

Example NewAlfenHttp_logs_in :
  NewAlfenHttp (D := scripted) "https://wallbox/" "secret" (fresh [ok200 ""])
  = (inl wallbox,
     @Build_St scripted [] [login_request wallbox] emptyCache 0).
Proof. reflexivity. Qed.

Example NewAlfenHttp_rejected :
  fst (NewAlfenHttp (D := scripted) "https://wallbox/" "wrong" (fresh [unauthorized]))
  = inr (LoginFailed "401 Unauthorized").
Proof. reflexivity. Qed.

Example Status_charging :
  fst (Status (D := scripted) wallbox (fresh [ok200 "charging"]))
  = Returns (StatusC, None).
Proof. reflexivity. Qed.

Example Status_of_text_panics :
  Status_of (Str "11") None = Panics "interface conversion: interface {} is not float64".
Proof. reflexivity. Qed.

(** ** Properties of the session handling *)

Section SessionProperties.

Context {D : Device}.

Local Open Scope list_scope.

Lemma httpDo_trace (req : Request) (s : St) :
  trace (snd (httpDo req s)) = trace s ++ [req].
Proof.
  unfold httpDo. destruct (RoundTrip req (world s)); reflexivity.
Qed.

Lemma httpDo_keeps (req : Request) (s : St) :
  cache (snd (httpDo req s)) = cache s /\ clock (snd (httpDo req s)) = clock s.
Proof.
  unfold httpDo. destruct (RoundTrip req (world s)); split; reflexivity.
Qed.

(** [login] is one POST to the login endpoint, whatever its result. *)
Lemma login_unfold (c : AlfenHttp) (s : St) :
  login c s =
  match httpDo (login_request c) s with
  | (inr err, s') => (Some err, s')
  | (inl resp, s') =>
      if StatusCode resp =? 200
      then (match Body resp with inr e => Some e | inl _ => None end, s')
      else (Some (LoginFailed (Status_line resp)), s')
  end.
Proof.
  unfold login, Post, login_request, bind, ret.
  destruct (httpDo _ s) as [[resp | err] s']; [ | reflexivity ].
  destruct (StatusCode resp =? 200); [ | reflexivity ].
  unfold processResponse. destruct (Body resp); reflexivity.
Qed.

Lemma login_trace (c : AlfenHttp) (s : St) :
  trace (snd (login c s)) = trace s ++ [login_request c].
Proof.
  rewrite login_unfold. pose proof (httpDo_trace (login_request c) s) as Ht.
  destruct (httpDo (login_request c) s) as [[resp | err] s']; simpl in *;
    [ destruct (StatusCode resp =? 200) | ]; exact Ht.
Qed.

Lemma login_keeps (c : AlfenHttp) (s : St) :
  cache (snd (login c s)) = cache s /\ clock (snd (login c s)) = clock s.
Proof.
  rewrite login_unfold. pose proof (httpDo_keeps (login_request c) s) as Hk.
  destruct (httpDo (login_request c) s) as [[resp | err] s']; simpl in *;
    [ destruct (StatusCode resp =? 200) | ]; exact Hk.
Qed.

(** Any status other than 200 makes [login] fail. *)
Lemma login_rejects_other_status (c : AlfenHttp) (s : St) (resp : Response) (s' : St) :
  httpDo (login_request c) s = (inl resp, s') ->
  StatusCode resp <> 200 ->
  login c s = (Some (LoginFailed (Status_line resp)), s').
Proof.
  intros Hdo Hcode. rewrite login_unfold, Hdo.
  destruct (Z.eqb_spec (StatusCode resp) 200); [ contradiction | reflexivity ].
Qed.

(** The four ways through [ensureAuthenticated], for any action. *)
Lemma ensureAuthenticated_unfold (c : AlfenHttp) (method : M (Response + error)) (s : St) :
  ensureAuthenticated c method s =
  match method s with
  | (inr err, s1) => (inr err, s1)
  | (inl resp, s1) =>
      if StatusCode resp =? 401
      then match login c s1 with
           | (Some err, s2) => (inr err, s2)
           | (None, s2) => method s2
           end
      else (inl resp, s1)
  end.
Proof.
  unfold ensureAuthenticated, bind, ret.
  destruct (method s) as [[resp | err] s1]; [ | reflexivity ].
  destruct (StatusCode resp =? 401); [ | reflexivity ].
  destruct (login c s1) as [[err | ] s2]; [ reflexivity | ].
  destruct (method s2) as [[resp' | err'] s3]; reflexivity.
Qed.

(** The requests an authenticated call sends for a single-request action: the
    request, then possibly one login, then possibly the request once more. *)
Lemma ensureAuthenticated_trace (c : AlfenHttp) (req : Request) (s : St) :
  exists more,
    trace (snd (ensureAuthenticated c (httpDo req) s)) = trace s ++ req :: more /\
    (more = [] \/ more = [login_request c] \/ more = [login_request c; req]).
Proof.
  rewrite ensureAuthenticated_unfold.
  pose proof (httpDo_trace req s) as H1.
  destruct (httpDo req s) as [[resp | err] s1]; simpl in H1.
  - destruct (StatusCode resp =? 401).
    + pose proof (login_trace c s1) as H2.
      destruct (login c s1) as [[err | ] s2]; simpl in H2.
      * exists [login_request c]. simpl. rewrite H2, H1, <- app_assoc. auto.
      * exists [login_request c; req]. rewrite httpDo_trace, H2, H1.
        rewrite <- !app_assoc. auto.
    + exists []. simpl. auto.
  - exists []. simpl. auto.
Qed.

Lemma ensureAuthenticated_keeps (c : AlfenHttp) (req : Request) (s : St) :
  cache (snd (ensureAuthenticated c (httpDo req) s)) = cache s /\
  clock (snd (ensureAuthenticated c (httpDo req) s)) = clock s.
Proof.
  rewrite ensureAuthenticated_unfold.
  pose proof (httpDo_keeps req s) as [H1 H1'].
  destruct (httpDo req s) as [[resp | err] s1]; simpl in *; [ | auto ].
  destruct (StatusCode resp =? 401); [ | simpl; auto ].
  pose proof (login_keeps c s1) as [H2 H2'].
  destruct (login c s1) as [[err | ] s2]; simpl in *.
  - split; congruence.
  - pose proof (httpDo_keeps req s2) as [H3 H3']. split; congruence.
Qed.

(** C1. When the first execution of the action answers 401, the client logs in
    once and, the login having succeeded, executes the action once more: the
    call returns exactly what that second execution returns (a response, be it
    a second 401, or its transport error) in the state that execution leaves.
    For an action that is one request, the requests sent are the action, one
    login, the action -- nothing after that. *)
Theorem ensureAuthenticated_relogin_retry_once
    (c : AlfenHttp) (method : M (Response + error)) (s s1 s2 : St) (resp : Response) :
  method s = (inl resp, s1) ->
  StatusCode resp = 401 ->
  login c s1 = (None, s2) ->
  ensureAuthenticated c method s = method s2 /\
  trace s2 = trace s1 ++ [login_request c] /\
  forall req, method = httpDo req ->
    trace (snd (ensureAuthenticated c method s))
      = trace s ++ [req; login_request c; req].
Proof.
  intros Hfirst Hcode Hlogin.
  assert (Hcall : ensureAuthenticated c method s = method s2).
  { rewrite ensureAuthenticated_unfold, Hfirst, Hcode. simpl. rewrite Hlogin. reflexivity. }
  assert (Ht2 : trace s2 = trace s1 ++ [login_request c]).
  { pose proof (login_trace c s1) as H2. rewrite Hlogin in H2. exact H2. }
  repeat split; [ exact Hcall | exact Ht2 | ].
  intros req ->.
  pose proof (httpDo_trace req s) as H1. rewrite Hfirst in H1. simpl in H1.
  rewrite Hcall, httpDo_trace, Ht2, H1, <- !app_assoc. reflexivity.
Qed.

(** C6. When the first execution answers 401 and the login that follows fails,
    the call fails with the error of the login, in the state the login left:
    the action is not executed again.  For an action that is one request, the
    requests sent are the action and the login only. *)
Theorem ensureAuthenticated_login_failure_no_retry
    (c : AlfenHttp) (method : M (Response + error)) (s s1 s2 : St)
    (resp : Response) (err : error) :
  method s = (inl resp, s1) ->
  StatusCode resp = 401 ->
  login c s1 = (Some err, s2) ->
  ensureAuthenticated c method s = (inr err, s2) /\
  trace s2 = trace s1 ++ [login_request c] /\
  forall req, method = httpDo req ->
    trace (snd (ensureAuthenticated c method s)) = trace s ++ [req; login_request c].
Proof.
  intros Hfirst Hcode Hlogin.
  assert (Hcall : ensureAuthenticated c method s = (inr err, s2)).
  { rewrite ensureAuthenticated_unfold, Hfirst, Hcode. simpl. rewrite Hlogin. reflexivity. }
  assert (Ht2 : trace s2 = trace s1 ++ [login_request c]).
  { pose proof (login_trace c s1) as H2. rewrite Hlogin in H2. exact H2. }
  repeat split; [ exact Hcall | exact Ht2 | ].
  intros req ->.
  pose proof (httpDo_trace req s) as H1. rewrite Hfirst in H1. simpl in H1.
  rewrite Hcall. simpl. rewrite Ht2, H1, <- app_assoc. reflexivity.
Qed.

End SessionProperties.

(** ** Properties of the property writes *)

Section WriteProperties.

Context {D : Device}.

Local Open Scope list_scope.

Lemma setProperty_unfold (c : AlfenHttp) (property value : string) (s : St) :
  setProperty c property value s =
  match ensureAuthenticated c (httpDo (setProperty_request c property value)) s with
  | (inr err, s') => (Some err, s')
  | (inl _, s') => (None, s')
  end.
Proof.
  unfold setProperty, Post, setProperty_request, bind, ret.
  destruct (ensureAuthenticated c _ s) as [[resp | err] s']; reflexivity.
Qed.

Lemma setProperty_trace (c : AlfenHttp) (property value : string) (s : St) :
  exists more,
    trace (snd (setProperty c property value s))
      = trace s ++ setProperty_request c property value :: more /\
    (more = [] \/ more = [login_request c] \/
     more = [login_request c; setProperty_request c property value]).
Proof.
  rewrite setProperty_unfold.
  destruct (ensureAuthenticated_trace c (setProperty_request c property value) s)
    as [more [Ht Hmore]].
  exists more. split; [ | exact Hmore ].
  destruct (ensureAuthenticated c _ s) as [[resp | err] s']; exact Ht.
Qed.

Lemma logout_trace (c : AlfenHttp) (s : St) :
  trace (snd (logout c s)) = trace s ++ [logout_request c].
Proof.
  unfold logout, Post, bind, ret. fold (logout_request c).
  pose proof (httpDo_trace (logout_request c) s) as Ht.
  destruct (httpDo (logout_request c) s) as [[resp | err] s']; simpl in *;
    [ destruct (negb (StatusCode resp =? 200)) | ]; exact Ht.
Qed.

Lemma Phases1p3p_unfold (c : AlfenHttp) (phases : Z) (s : St) :
  Phases1p3p c phases s =
  match setProperty c loadBalancingEnablePhaseSwitching statusOn s with
  | (Some e, s1) => (Some e, s1)
  | (None, s1) => setProperty c installationMaxAllowedPhases (Sprint phases) s1
  end.
Proof.
  unfold Phases1p3p, bind, ret.
  destruct (setProperty c loadBalancingEnablePhaseSwitching statusOn s) as [[e | ] s1];
    reflexivity.
Qed.

(** The write of the phase count is neither the enabling write nor a login. *)
Lemma phase_write_not_among (c : AlfenHttp) (phases : Z) (more : list Request) :
  more = [] \/ more = [login_request c] \/
  more = [login_request c;
          setProperty_request c loadBalancingEnablePhaseSwitching statusOn] ->
  ~ In (setProperty_request c installationMaxAllowedPhases (Sprint phases))
       (setProperty_request c loadBalancingEnablePhaseSwitching statusOn :: more).
Proof.
  intros Hmore Hin.
  assert (Hne1 : setProperty_request c loadBalancingEnablePhaseSwitching statusOn
                 <> setProperty_request c installationMaxAllowedPhases (Sprint phases))
    by (unfold setProperty_request; intros Heq; discriminate Heq).
  assert (Hne2 : login_request c
                 <> setProperty_request c installationMaxAllowedPhases (Sprint phases))
    by (unfold setProperty_request, login_request; intros Heq; discriminate Heq).
  destruct Hmore as [-> | [-> | ->]]; simpl in Hin; intuition.
Qed.

(** C10. A property write whose POST comes back with any status other than 401
    reports success: the status of the response (500, say) is never looked at,
    the result is nil and nothing else is sent. *)
Theorem setProperty_ignores_response_status
    (c : AlfenHttp) (property value : string) (s s1 : St) (resp : Response) :
  httpDo (setProperty_request c property value) s = (inl resp, s1) ->
  StatusCode resp <> 401 ->
  setProperty c property value s = (None, s1) /\
  trace s1 = trace s ++ [setProperty_request c property value].
Proof.
  intros Hdo Hcode. split.
  - rewrite setProperty_unfold, ensureAuthenticated_unfold, Hdo.
    destruct (Z.eqb_spec (StatusCode resp) 401); [ contradiction | reflexivity ].
  - pose proof (httpDo_trace (setProperty_request c property value) s) as Ht.
    rewrite Hdo in Ht. exact Ht.
Qed.

(** The same after a renewed session: whatever status the repeated POST comes
    back with, the write reports success. *)
Lemma setProperty_ignores_status_of_retry
    (c : AlfenHttp) (property value : string) (s s1 s2 s3 : St) (resp resp' : Response) :
  httpDo (setProperty_request c property value) s = (inl resp, s1) ->
  StatusCode resp = 401 ->
  login c s1 = (None, s2) ->
  httpDo (setProperty_request c property value) s2 = (inl resp', s3) ->
  setProperty c property value s = (None, s3).
Proof.
  intros Hdo Hcode Hlogin Hretry.
  rewrite setProperty_unfold, ensureAuthenticated_unfold, Hdo, Hcode. simpl.
  rewrite Hlogin, Hretry. reflexivity.
Qed.

(** C8. [Phases1p3p] is two writes in a row: the property that enables phase
    switching first and, that write having succeeded, the phase count.  When
    the first write fails, its error is the result and the phase count is not
    written: what was sent is the first write (with at most a login and its
    repetition). *)
Theorem Phases1p3p_two_step_write (c : AlfenHttp) (phases : Z) (s : St) :
  let first := setProperty c loadBalancingEnablePhaseSwitching statusOn s in
  (fst first = None ->
   Phases1p3p c phases s
     = setProperty c installationMaxAllowedPhases (Sprint phases) (snd first)) /\
  (forall e, fst first = Some e ->
   Phases1p3p c phases s = (Some e, snd first) /\
   exists more,
     trace (snd (Phases1p3p c phases s))
       = trace s ++ setProperty_request c loadBalancingEnablePhaseSwitching statusOn :: more /\
     ~ In (setProperty_request c installationMaxAllowedPhases (Sprint phases))
          (setProperty_request c loadBalancingEnablePhaseSwitching statusOn :: more)).
Proof.
  intros first. subst first. rewrite Phases1p3p_unfold.
  destruct (setProperty_trace c loadBalancingEnablePhaseSwitching statusOn s)
    as [more [Ht Hmore]].
  destruct (setProperty c loadBalancingEnablePhaseSwitching statusOn s) as [[e0 | ] s1];
    simpl in *; split.
  - discriminate.
  - intros e He. injection He as <-. split; [ reflexivity | ].
    exists more. split; [ exact Ht | ]. apply phase_write_not_among. exact Hmore.
  - reflexivity.
  - discriminate.
Qed.

(** The requests of [Phases1p3p]: the enabling write comes first, and the
    write of the phase count is among the rest when the enabling write
    succeeded. *)
Lemma Phases1p3p_trace (c : AlfenHttp) (phases : Z) (s : St) :
  exists more,
    trace (snd (Phases1p3p c phases s))
      = trace s ++ setProperty_request c loadBalancingEnablePhaseSwitching statusOn :: more /\
    (fst (setProperty c loadBalancingEnablePhaseSwitching statusOn s) = None ->
     In (setProperty_request c installationMaxAllowedPhases (Sprint phases)) more).
Proof.
  rewrite Phases1p3p_unfold.
  destruct (setProperty_trace c loadBalancingEnablePhaseSwitching statusOn s)
    as [more1 [Ht1 _]].
  destruct (setProperty c loadBalancingEnablePhaseSwitching statusOn s) as [[e | ] s1];
    simpl in *.
  - exists more1. split; [ exact Ht1 | discriminate ].
  - destruct (setProperty_trace c installationMaxAllowedPhases (Sprint phases) s1)
      as [more2 [Ht2 _]].
    exists (more1 ++ setProperty_request c installationMaxAllowedPhases (Sprint phases) :: more2).
    split.
    + rewrite Ht2, Ht1, <- app_assoc. reflexivity.
    + intros _. apply in_or_app. right. left. reflexivity.
Qed.

Lemma Shutdown_unfold (c : AlfenHttp) (s : St) :
  Shutdown c s
  = (tt, snd (logout c (snd (MaxCurrent c maxCurrent (snd (Phases1p3p c 3 s)))))).
Proof.
  unfold Shutdown, bind, ret.
  destruct (Phases1p3p c 3 s) as [r1 s1]. simpl.
  destruct (MaxCurrent c maxCurrent s1) as [r2 s2]. simpl.
  destruct (logout c s2) as [r3 s3]. reflexivity.
Qed.

(** What one [Shutdown] sends, whatever the answers: the write that enables
    phase switching (followed by the write of 3 phases when it succeeded), then
    the write of 16 A, and the logout as the last request. *)
Lemma Shutdown_trace (c : AlfenHttp) (s : St) :
  exists phase_rest current_rest,
    trace (snd (Shutdown c s))
      = trace s
        ++ (setProperty_request c loadBalancingEnablePhaseSwitching statusOn :: phase_rest)
        ++ (setProperty_request c maxStationCurrent "16" :: current_rest)
        ++ [logout_request c] /\
    (fst (setProperty c loadBalancingEnablePhaseSwitching statusOn s) = None ->
     In (setProperty_request c installationMaxAllowedPhases "3") phase_rest).
Proof.
  rewrite Shutdown_unfold. simpl.
  destruct (Phases1p3p_trace c 3 s) as [l1 [Ht1 Hin]].
  destruct (setProperty_trace c maxStationCurrent (Sprint maxCurrent)
              (snd (Phases1p3p c 3 s))) as [l2 [Ht2 _]].
  exists l1, l2. split; [ | exact Hin ].
  rewrite logout_trace. unfold MaxCurrent. rewrite Ht2, Ht1.
  change (Sprint maxCurrent) with "16"%string.
  rewrite <- !app_assoc. reflexivity.
Qed.

(** The write of 3 phases is none of the other requests of a [Shutdown]. *)
Lemma phase3_write_differs (c : AlfenHttp) :
  setProperty_request c installationMaxAllowedPhases "3"
    <> setProperty_request c loadBalancingEnablePhaseSwitching statusOn /\
  setProperty_request c installationMaxAllowedPhases "3"
    <> setProperty_request c maxStationCurrent "16" /\
  setProperty_request c installationMaxAllowedPhases "3" <> login_request c /\
  setProperty_request c installationMaxAllowedPhases "3" <> logout_request c.
Proof.
  unfold setProperty_request, login_request, logout_request.
  repeat split; intros Heq; discriminate Heq.
Qed.

(** The requests of one [Shutdown], with the part the write of 3 phases has in
    them: it is sent when the enabling write succeeded, and it is not sent at
    all when the enabling write failed. *)
Lemma Shutdown_trace_phase_write (c : AlfenHttp) (s : St) :
  exists phase_rest current_rest,
    trace (snd (Shutdown c s))
      = trace s
        ++ (setProperty_request c loadBalancingEnablePhaseSwitching statusOn :: phase_rest)
        ++ (setProperty_request c maxStationCurrent "16" :: current_rest)
        ++ [logout_request c] /\
    (fst (setProperty c loadBalancingEnablePhaseSwitching statusOn s) = None ->
     In (setProperty_request c installationMaxAllowedPhases "3") phase_rest) /\
    (forall e, fst (setProperty c loadBalancingEnablePhaseSwitching statusOn s) = Some e ->
     ~ In (setProperty_request c installationMaxAllowedPhases "3")
          ((setProperty_request c loadBalancingEnablePhaseSwitching statusOn :: phase_rest)
           ++ (setProperty_request c maxStationCurrent "16" :: current_rest)
           ++ [logout_request c])).
Proof.
  rewrite Shutdown_unfold. simpl. rewrite logout_trace. unfold MaxCurrent.
  change (Sprint maxCurrent) with "16"%string.
  rewrite Phases1p3p_unfold. change (Sprint 3) with "3"%string.
  destruct (phase3_write_differs c) as [Hne1 [Hne2 [Hne3 Hne4]]].
  destruct (setProperty_trace c loadBalancingEnablePhaseSwitching statusOn s)
    as [more1 [Ht1 Hm1]].
  destruct (setProperty c loadBalancingEnablePhaseSwitching statusOn s) as [[e | ] s1];
    simpl in *.
  - destruct (setProperty_trace c maxStationCurrent "16" s1) as [more2 [Ht2 Hm2]].
    exists more1, more2. split; [ | split ].
    + rewrite Ht2, Ht1, <- !app_assoc. reflexivity.
    + discriminate.
    + intros e' _ Hin.
      destruct Hm1 as [-> | [-> | ->]]; destruct Hm2 as [-> | [-> | ->]];
        simpl in Hin;
        repeat (destruct Hin as [Hin | Hin]; [ symmetry in Hin; contradiction | ]);
        exact Hin.
  - destruct (setProperty_trace c installationMaxAllowedPhases "3" s1)
      as [more3 [Ht3 _]].
    destruct (setProperty_trace c maxStationCurrent "16"
                (snd (setProperty c installationMaxAllowedPhases "3" s1)))
      as [more2 [Ht2 _]].
    exists (more1 ++ setProperty_request c installationMaxAllowedPhases "3" :: more3), more2.
    split; [ | split ].
    + rewrite Ht2, Ht3, Ht1, <- !app_assoc. reflexivity.
    + intros _. apply in_or_app. right. left. reflexivity.
    + discriminate.
Qed.

(** C9 (as amended). [Shutdown] runs three calls in order -- [Phases1p3p] with
    3, then [MaxCurrent] with 16, then [logout] -- each from the state the
    previous one left, whatever that call returned: no result of a call is
    looked at and [Shutdown] itself has no error to return.  The write of
    16 A and the logout are sent in every run, after the write that enables
    phase switching.  The write of 3 phases is sent when that enabling write
    succeeded and is not sent at all when it failed.  The same holds again for
    a second [Shutdown] right after the first. *)
Theorem Shutdown_runs_all_steps (c : AlfenHttp) (s : St) :
  Shutdown c s
    = (tt, snd (logout c (snd (MaxCurrent c maxCurrent (snd (Phases1p3p c 3 s)))))) /\
  (exists phase_rest current_rest,
     trace (snd (Shutdown c s))
       = trace s
         ++ (setProperty_request c loadBalancingEnablePhaseSwitching statusOn :: phase_rest)
         ++ (setProperty_request c maxStationCurrent "16" :: current_rest)
         ++ [logout_request c] /\
     (fst (setProperty c loadBalancingEnablePhaseSwitching statusOn s) = None ->
      In (setProperty_request c installationMaxAllowedPhases "3") phase_rest) /\
     (forall e, fst (setProperty c loadBalancingEnablePhaseSwitching statusOn s) = Some e ->
      ~ In (setProperty_request c installationMaxAllowedPhases "3")
           ((setProperty_request c loadBalancingEnablePhaseSwitching statusOn :: phase_rest)
            ++ (setProperty_request c maxStationCurrent "16" :: current_rest)
            ++ [logout_request c]))) /\
  (exists phase_rest current_rest,
     trace (snd (Shutdown c (snd (Shutdown c s))))
       = trace (snd (Shutdown c s))
         ++ (setProperty_request c loadBalancingEnablePhaseSwitching statusOn :: phase_rest)
         ++ (setProperty_request c maxStationCurrent "16" :: current_rest)
         ++ [logout_request c]).
Proof.
  split; [ apply Shutdown_unfold | split ].
  - apply Shutdown_trace_phase_write.
  - destruct (Shutdown_trace_phase_write c (snd (Shutdown c s))) as [l1 [l2 [Ht _]]].
    exists l1, l2. exact Ht.
Qed.

End WriteProperties.

(** ** Properties of the property cache *)

Section CacheProperties.

Context {D : Device}.

Local Open Scope list_scope.

Lemma getProperties_unfold (c : AlfenHttp) (s : St) :
  getProperties c s =
  match ensureAuthenticated c (httpDo (getProperties_request c)) s with
  | (inr err, s') => (inr err, s')
  | (inl resp, s') =>
      if StatusCode resp =? 200
      then match Body resp with
           | inr err => (inr err, s')
           | inl body => (unmarshalProperties body, s')
           end
      else (inr (ErrorGettingProperties (Status_line resp)), s')
  end.
Proof.
  unfold getProperties, Get, getProperties_request, bind, ret.
  destruct (ensureAuthenticated c _ s) as [[resp | err] s']; [ | reflexivity ].
  destruct (StatusCode resp =? 200); simpl; [ | reflexivity ].
  destruct (Body resp) as [body | err]; [ | reflexivity ].
  destruct (unmarshalProperties body); reflexivity.
Qed.

(** A refresh always sends the bulk read, and leaves memo and clock alone. *)
Lemma getProperties_effect (c : AlfenHttp) (s : St) :
  (exists more,
     trace (snd (getProperties c s)) = trace s ++ getProperties_request c :: more) /\
  cache (snd (getProperties c s)) = cache s /\
  clock (snd (getProperties c s)) = clock s.
Proof.
  rewrite getProperties_unfold.
  destruct (ensureAuthenticated_trace c (getProperties_request c) s) as [more [Ht _]].
  destruct (ensureAuthenticated_keeps c (getProperties_request c) s) as [Hc Hk].
  destruct (ensureAuthenticated c _ s) as [[resp | err] s']; simpl in *.
  - destruct (StatusCode resp =? 200); [ destruct (Body resp) | ]; simpl; eauto.
  - eauto.
Qed.

Lemma Cached_hit (g : M (Properties + error)) (interval : Z) (s : St) (snapshot : Properties) :
  lastSnapshot (cache s) = Some snapshot ->
  clock s - lastFetchTime (cache s) < interval ->
  Cached g interval s = (inl snapshot, s).
Proof.
  intros Hsnap Hyoung. unfold Cached. rewrite Hsnap.
  destruct (Z.ltb_spec (clock s - lastFetchTime (cache s)) interval); [ reflexivity | lia ].
Qed.

Lemma Cached_miss (g : M (Properties + error)) (interval : Z) (s : St) :
  lastSnapshot (cache s) = None \/ interval <= clock s - lastFetchTime (cache s) ->
  Cached g interval s = refreshAndStore g s.
Proof.
  intros Hstale. unfold Cached.
  destruct (lastSnapshot (cache s)) as [snapshot | ]; [ | reflexivity ].
  destruct Hstale as [Hnone | Hold]; [ discriminate | ].
  destruct (Z.ltb_spec (clock s - lastFetchTime (cache s)) interval); [ lia | reflexivity ].
Qed.

(** A successful call leaves the snapshot it returned in the memo; when it
    had to refresh, the memo is stamped with the time of the call. *)
Lemma getPropertiesG_success (c : AlfenHttp) (s s1 : St) (snapshot : Properties) :
  getPropertiesG c s = (inl snapshot, s1) ->
  lastSnapshot (cache s1) = Some snapshot /\
  (s1 = s \/ lastFetchTime (cache s1) = clock s /\ clock s1 = clock s).
Proof.
  unfold getPropertiesG, Cached, refreshAndStore, bind, ret.
  destruct (getProperties_effect c s) as [_ [_ Hk]].
  destruct (lastSnapshot (cache s)) as [old | ] eqn:Hold.
  - destruct (clock s - lastFetchTime (cache s) <? refreshInterval).
    + intros Heq. injection Heq as <- <-. auto.
    + destruct (getProperties c s) as [[p | e] s']; intros Heq;
        [ injection Heq as <- <- | discriminate ].
      simpl in *. auto.
  - destruct (getProperties c s) as [[p | e] s']; intros Heq;
      [ injection Heq as <- <- | discriminate ].
    simpl in *. auto.
Qed.

(** C4. While the memoized snapshot is younger than the refresh interval of
    five seconds, [getPropertiesG] returns it and [getProperty] answers from
    it, and the state is left as it was: no request is sent. *)
Theorem getProperty_within_interval_sends_nothing
    (c : AlfenHttp) (s : St) (snapshot : Properties) :
  lastSnapshot (cache s) = Some snapshot ->
  clock s - lastFetchTime (cache s) < refreshInterval ->
  refreshInterval = 5000000000 /\
  getPropertiesG c s = (inl snapshot, s) /\
  forall id,
    snd (getProperty c id s) = s /\
    trace (snd (getProperty c id s)) = trace s /\
    fst (getProperty c id s)
      = match findProperty id (PropertyList snapshot) with
        | Some v => (v, None)
        | None => (Str "", Some (UnableToGetProperty id snapshot))
        end.
Proof.
  intros Hsnap Hyoung.
  assert (Hhit : getPropertiesG c s = (inl snapshot, s))
    by (apply Cached_hit; assumption).
  split; [ reflexivity | split; [ exact Hhit | ] ].
  intros id. unfold getProperty, bind, ret. rewrite Hhit.
  destruct (findProperty id (PropertyList snapshot)); simpl; auto.
Qed.

(** In particular after a call that refreshed successfully at time [clock s0]:
    any call made less than five seconds later, the memo untouched in between,
    is answered with the same snapshot and sends nothing. *)
Lemma no_fetch_after_successful_refresh
    (c : AlfenHttp) (s0 s1 s : St) (snapshot : Properties) :
  lastSnapshot (cache s0) = None \/
    refreshInterval <= clock s0 - lastFetchTime (cache s0) ->
  getPropertiesG c s0 = (inl snapshot, s1) ->
  cache s = cache s1 ->
  clock s - clock s0 < refreshInterval ->
  getPropertiesG c s = (inl snapshot, s).
Proof.
  intros Hstale Hfirst Hsame Hyoung.
  destruct (getPropertiesG_success c s0 s1 snapshot Hfirst) as [Hmemo Hstamp].
  assert (Htime : lastFetchTime (cache s1) = clock s0).
  { unfold getPropertiesG in Hfirst. rewrite (Cached_miss _ _ _ Hstale) in Hfirst.
    unfold refreshAndStore, bind, ret in Hfirst.
    destruct (getProperties_effect c s0) as [_ [_ Hk]].
    destruct (getProperties c s0) as [[p | e] s']; [ | discriminate ].
    injection Hfirst as _ <-. simpl in *. exact Hk. }
  apply Cached_hit; rewrite Hsame; [ exact Hmemo | rewrite Htime; exact Hyoung ].
Qed.

(** C5. A refresh that fails is returned and not stored: the memo after the
    failed call is the memo before it, and a later call that finds this memo
    refreshes again -- it sends the bulk read and returns what that refresh
    returns, not the old failure. *)
Theorem failed_refresh_is_not_cached
    (c : AlfenHttp) (s s1 : St) (err : error) :
  getPropertiesG c s = (inr err, s1) ->
  getProperties c s = (inr err, s1) /\
  cache s1 = cache s /\
  forall s2 : St,
    cache s2 = cache s1 ->
    clock s <= clock s2 ->
    getPropertiesG c s2 = refreshAndStore (getProperties c) s2 /\
    fst (getPropertiesG c s2) = fst (getProperties c s2) /\
    (exists more,
       trace (snd (getPropertiesG c s2)) = trace s2 ++ getProperties_request c :: more) /\
    forall id, exists more,
      trace (snd (getProperty c id s2)) = trace s2 ++ getProperties_request c :: more.
Proof.
  intros Hfail.
  assert (Hstale : lastSnapshot (cache s) = None \/
                   refreshInterval <= clock s - lastFetchTime (cache s)).
  { unfold getPropertiesG, Cached in Hfail.
    destruct (lastSnapshot (cache s)) as [old | ]; [ | auto ].
    destruct (Z.ltb_spec (clock s - lastFetchTime (cache s)) refreshInterval);
      [ discriminate | auto ]. }
  assert (Hrun : getProperties c s = (inr err, s1)).
  { unfold getPropertiesG in Hfail. rewrite (Cached_miss _ _ _ Hstale) in Hfail.
    unfold refreshAndStore, bind, ret in Hfail.
    destruct (getProperties c s) as [[p | e] s']; [ discriminate | ].
    injection Hfail as -> ->. reflexivity. }
  assert (Hcache : cache s1 = cache s).
  { destruct (getProperties_effect c s) as [_ [Hc _]]. rewrite Hrun in Hc. exact Hc. }
  split; [ exact Hrun | split; [ exact Hcache | ] ].
  intros s2 Hsame Hlater.
  assert (Hstale2 : lastSnapshot (cache s2) = None \/
                    refreshInterval <= clock s2 - lastFetchTime (cache s2)).
  { rewrite Hsame, Hcache. destruct Hstale as [Hnone | Hold]; [ auto | right; lia ]. }
  assert (Hagain : getPropertiesG c s2 = refreshAndStore (getProperties c) s2)
    by (apply Cached_miss; exact Hstale2).
  split; [ exact Hagain | ].
  assert (Hsent : exists more,
            trace (snd (getPropertiesG c s2)) = trace s2 ++ getProperties_request c :: more).
  { rewrite Hagain. unfold refreshAndStore, bind, ret.
    destruct (getProperties_effect c s2) as [[more Ht] _].
    destruct (getProperties c s2) as [[p | e] s3]; simpl in *; eauto. }
  split; [ | split; [ exact Hsent | ] ].
  - rewrite Hagain. unfold refreshAndStore, bind, ret.
    destruct (getProperties c s2) as [[p | e] s3]; reflexivity.
  - intros id. destruct Hsent as [more Ht]. exists more.
    unfold getProperty, bind, ret.
    destruct (getPropertiesG c s2) as [[props | e] s3]; simpl in *; [ | exact Ht ].
    destruct (findProperty id (PropertyList props)); exact Ht.
Qed.

End CacheProperties.

(** ** Properties of the decoding of raw values *)

Section DecodingProperties.

Context {D : Device}.

Lemma Status_unfold (c : AlfenHttp) (s : St) :
  Status c s
  = (Status_of (fst (fst (getProperty c state s))) (snd (fst (getProperty c state s))),
     snd (getProperty c state s)).
Proof.
  unfold Status, bind, ret. destruct (getProperty c state s) as [[v e] s']. reflexivity.
Qed.

Lemma Enabled_unfold (c : AlfenHttp) (s : St) :
  Enabled c s
  = (Enabled_of (fst (fst (getProperty c maxStationCurrent s)))
                (snd (fst (getProperty c maxStationCurrent s))),
     snd (getProperty c maxStationCurrent s)).
Proof.
  unfold Enabled, bind, ret.
  destruct (getProperty c maxStationCurrent s) as [[v e] s']. reflexivity.
Qed.

(** On [float64], [x <= y] excludes [y < x]. *)
Lemma SFleb_not_SFltb (x y : spec_float) :
  SFleb x y = true -> SFltb y x = false.
Proof.
  unfold SFleb, SFltb, SFcompare.
  destruct x as [sx | sx | | sx mx ex], y as [sy | sy | | sy my ey];
    try destruct sx; try destruct sy; simpl; try congruence.
  - rewrite (Z.compare_antisym ey ex).
    change (PosDef.Pos.compare_cont Eq my mx) with (Pos.compare my mx).
    change (PosDef.Pos.compare_cont Eq mx my) with (Pos.compare mx my).
    rewrite (Pos.compare_antisym my mx).
    destruct (ey ?= ex)%Z; simpl; try congruence.
    destruct (my ?= mx)%positive; simpl; congruence.
  - rewrite (Z.compare_antisym ey ex).
    change (PosDef.Pos.compare_cont Eq my mx) with (Pos.compare my mx).
    change (PosDef.Pos.compare_cont Eq mx my) with (Pos.compare mx my).
    rewrite (Pos.compare_antisym my mx).
    destruct (ey ?= ex)%Z; simpl; try congruence.
    destruct (my ?= mx)%positive; simpl; congruence.
Qed.

Lemma float_leb_not_ltb (x y : float) :
  PrimFloat.leb x y = true -> PrimFloat.ltb y x = false.
Proof.
  rewrite leb_spec, ltb_spec. apply SFleb_not_SFltb.
Qed.

(** C2. The [switch] of [Status] on a raw value read without error: 4 gives
    status A (no vehicle); 7, 8, 9, 10, 16, 17 and 36 give status B (vehicle
    connected, not charging); 11 gives status C (charging); 21, 26 and 34 give
    status E (error) -- and [Status] is this mapping applied to the value that
    [getProperty] reads for the state property. *)
Theorem Status_maps_known_codes :
  (forall (c : AlfenHttp) (s : St),
     Status c s
     = (Status_of (fst (fst (getProperty c state s))) (snd (fst (getProperty c state s))),
        snd (getProperty c state s))) /\
  Status_of (Float64 4) None = Returns (StatusA, None) /\
  Status_of (Float64 7) None = Returns (StatusB, None) /\
  Status_of (Float64 8) None = Returns (StatusB, None) /\
  Status_of (Float64 9) None = Returns (StatusB, None) /\
  Status_of (Float64 10) None = Returns (StatusB, None) /\
  Status_of (Float64 16) None = Returns (StatusB, None) /\
  Status_of (Float64 17) None = Returns (StatusB, None) /\
  Status_of (Float64 36) None = Returns (StatusB, None) /\
  Status_of (Float64 11) None = Returns (StatusC, None) /\
  Status_of (Float64 21) None = Returns (StatusE, None) /\
  Status_of (Float64 26) None = Returns (StatusE, None) /\
  Status_of (Float64 34) None = Returns (StatusE, None) /\
  available = 4 /\ cableConnected = 7 /\ evConnected = 8 /\ preparingCharging = 9 /\
  waitVehicleCharging = 10 /\ finishWaitVehicle = 16 /\ finishWaitDisconnect = 17 /\
  loadBalancingForcedOff = 36 /\ chargingNormal = 11 /\ errorCharging = 21 /\
  errorTooManyRestarts = 26 /\ inoperative = 34.
Proof.
  split; [ exact Status_unfold | ].
  repeat split; vm_compute; reflexivity.
Qed.

(** C3. A raw value that equals none of the codes of the [switch] (999, for
    one) is not given a status: [Status] returns the empty status together
    with the "unhandled status" error that carries the raw value. *)
Theorem Status_rejects_unknown_code (c : AlfenHttp) (s s' : St) (f : float) :
  getProperty c state s = ((Float64 f, None), s') ->
  (forall k, In k statusCodes -> PrimFloat.eqb f (float64 k) = false) ->
  Status_of (Float64 f) None = Returns (StatusNone, Some (UnhandledStatus (Float64 f))) /\
  Status c s = (Returns (StatusNone, Some (UnhandledStatus (Float64 f))), s').
Proof.
  intros Hread Hnone.
  assert (Hof : Status_of (Float64 f) None
                = Returns (StatusNone, Some (UnhandledStatus (Float64 f)))).
  { unfold Status_of, isCase, existsb.
    rewrite !Hnone by (unfold statusCodes; simpl; tauto).
    reflexivity. }
  split; [ exact Hof | ].
  rewrite Status_unfold, Hread. cbn [fst snd]. rewrite Hof. reflexivity.
Qed.

(** C7. [Enabled] reads the current limit and compares it with the switch-off
    current of 5: it returns [5 < f] for the value [f] read, hence false
    whenever [f <= 5] and true for 16. *)
Theorem Enabled_compares_with_switch_off_current
    (c : AlfenHttp) (s s' : St) (f : float) :
  getProperty c maxStationCurrent s = ((Float64 f, None), s') ->
  Enabled c s = (Returns (PrimFloat.ltb 5 f, None), s') /\
  (PrimFloat.leb f 5 = true -> Enabled c s = (Returns (false, None), s')) /\
  (f = 16%float -> Enabled c s = (Returns (true, None), s')).
Proof.
  intros Hread.
  assert (Hen : Enabled c s = (Returns (PrimFloat.ltb 5 f, None), s')).
  { rewrite Enabled_unfold, Hread. reflexivity. }
  split; [ exact Hen | split ].
  - intros Hle. rewrite Hen, (float_leb_not_ltb _ _ Hle). reflexivity.
  - intros ->. rewrite Hen. reflexivity.
Qed.

End DecodingProperties.

(** ** The theorems at work on the scripted device *)

Local Open Scope list_scope.

(** The session has expired; the login succeeds; the repeated read is answered
    401 again, and that is what the caller gets, after three requests. *)
Lemma relogin_retry_once_witness :
  fst (ensureAuthenticated (D := scripted) wallbox (httpDo bulkRead)
         (fresh [unauthorized; ok200 ""; unauthorized]))
    = unauthorized /\
  trace (snd (ensureAuthenticated (D := scripted) wallbox (httpDo bulkRead)
                (fresh [unauthorized; ok200 ""; unauthorized])))
    = [bulkRead; login_request wallbox; bulkRead].
Proof.
  pose proof (ensureAuthenticated_relogin_retry_once (D := scripted)
                wallbox (httpDo bulkRead)
                (fresh [unauthorized; ok200 ""; unauthorized])
                (snd (httpDo bulkRead (fresh [unauthorized; ok200 ""; unauthorized])))
                (snd (login wallbox
                        (snd (httpDo bulkRead (fresh [unauthorized; ok200 ""; unauthorized])))))
                {| StatusCode := 401; Status_line := "401 Unauthorized"; Body := inl "" |}
                eq_refl eq_refl eq_refl) as [Hcall [_ Htrace]].
  split.
  - rewrite Hcall. reflexivity.
  - exact (Htrace bulkRead eq_refl).
Defined.

(** The session has expired and the login is answered 500: the call fails with
    the login error after two requests. *)
Lemma login_failure_no_retry_witness :
  fst (ensureAuthenticated (D := scripted) wallbox (httpDo bulkRead)
         (fresh [unauthorized; serverError; ok200 "charging"]))
    = inr (LoginFailed "500 Internal Server Error") /\
  trace (snd (ensureAuthenticated (D := scripted) wallbox (httpDo bulkRead)
                (fresh [unauthorized; serverError; ok200 "charging"])))
    = [bulkRead; login_request wallbox].
Proof.
  pose proof (ensureAuthenticated_login_failure_no_retry (D := scripted)
                wallbox (httpDo bulkRead)
                (fresh [unauthorized; serverError; ok200 "charging"])
                (snd (httpDo bulkRead (fresh [unauthorized; serverError; ok200 "charging"])))
                (snd (login wallbox
                        (snd (httpDo bulkRead
                                (fresh [unauthorized; serverError; ok200 "charging"])))))
                {| StatusCode := 401; Status_line := "401 Unauthorized"; Body := inl "" |}
                (LoginFailed "500 Internal Server Error")
                eq_refl eq_refl eq_refl) as [Hcall [_ Htrace]].
  split.
  - rewrite Hcall. reflexivity.
  - exact (Htrace bulkRead eq_refl).
Defined.

(** A write answered 500 reports success. *)
Lemma setProperty_ignores_response_status_witness :
  fst (setProperty (D := scripted) wallbox maxStationCurrent "16" (fresh [serverError]))
    = None /\
  trace (snd (setProperty (D := scripted) wallbox maxStationCurrent "16"
                (fresh [serverError])))
    = [write16A].
Proof.
  pose proof (setProperty_ignores_response_status (D := scripted)
                wallbox maxStationCurrent "16" (fresh [serverError])
                (snd (httpDo write16A (fresh [serverError])))
                {| StatusCode := 500; Status_line := "500 Internal Server Error";
                   Body := inl "" |}
                eq_refl ltac:(discriminate)) as [Hcall Htrace].
  rewrite Hcall. split; [ reflexivity | exact Htrace ].
Defined.

(** The enabling write fails on the network: [Phases1p3p] returns that error
    and has sent one request. *)
Lemma Phases1p3p_two_step_write_witness :
  Phases1p3p (D := scripted) wallbox 3 (fresh [])
    = (Some (TransportError "connection refused"),
       snd (setProperty (D := scripted) wallbox loadBalancingEnablePhaseSwitching statusOn
              (fresh []))) /\
  trace (snd (Phases1p3p (D := scripted) wallbox 3 (fresh [])))
    = [setProperty_request wallbox loadBalancingEnablePhaseSwitching statusOn].
Proof.
  destruct (Phases1p3p_two_step_write (D := scripted) wallbox 3 (fresh [])) as [_ Hfail].
  destruct (Hfail (TransportError "connection refused") eq_refl) as [Hcall _].
  split; [ exact Hcall | rewrite Hcall; reflexivity ].
Defined.

(** One read fills the memo; 4.999999999 s later a read of the state answers
    from it: no request besides the first. *)
Lemma getProperty_within_interval_witness :
  getProperty (D := scripted) wallbox state
    (later 4999999999 [refused]
       (snd (getPropertiesG (D := scripted) wallbox (fresh [ok200 "charging"]))))
  = ((Float64 11, None),
     later 4999999999 [refused]
       (snd (getPropertiesG (D := scripted) wallbox (fresh [ok200 "charging"])))) /\
  trace (snd (getProperty (D := scripted) wallbox state
                (later 4999999999 [refused]
                   (snd (getPropertiesG (D := scripted) wallbox
                           (fresh [ok200 "charging"]))))))
  = [bulkRead].
Proof.
  destruct (getProperty_within_interval_sends_nothing (D := scripted) wallbox
              (later 4999999999 [refused]
                 (snd (getPropertiesG (D := scripted) wallbox (fresh [ok200 "charging"]))))
              chargingSnapshot eq_refl eq_refl) as [_ [_ Hget]].
  destruct (Hget state) as [Hstate [Htrace Hvalue]].
  split.
  - rewrite (surjective_pairing (getProperty _ _ _)), Hstate, Hvalue. reflexivity.
  - rewrite Htrace. reflexivity.
Defined.

(** A refresh answered 500 fails and stores nothing; a nanosecond later the
    next call refreshes again and succeeds. *)
Lemma failed_refresh_is_not_cached_witness :
  fst (getPropertiesG (D := scripted) wallbox (fresh [serverError]))
    = inr (ErrorGettingProperties "500 Internal Server Error") /\
  fst (getPropertiesG (D := scripted) wallbox
         (later 1 [ok200 "charging"]
            (snd (getPropertiesG (D := scripted) wallbox (fresh [serverError])))))
    = inl chargingSnapshot /\
  trace (snd (getPropertiesG (D := scripted) wallbox
                (later 1 [ok200 "charging"]
                   (snd (getPropertiesG (D := scripted) wallbox (fresh [serverError]))))))
    = [bulkRead; bulkRead].
Proof.
  destruct (failed_refresh_is_not_cached (D := scripted) wallbox
              (fresh [serverError])
              (snd (getPropertiesG (D := scripted) wallbox (fresh [serverError])))
              (ErrorGettingProperties "500 Internal Server Error")
              eq_refl) as [_ [_ Hnext]].
  destruct (Hnext (later 1 [ok200 "charging"]
                     (snd (getPropertiesG (D := scripted) wallbox (fresh [serverError]))))
                  eq_refl ltac:(discriminate)) as [_ [Hresult _]].
  split; [ reflexivity | split ].
  - rewrite Hresult. reflexivity.
  - reflexivity.
Defined.

(** The device reports 999 as its state: [Status] returns the error. *)
Lemma Status_rejects_unknown_code_witness :
  Status (D := scripted) wallbox (fresh [ok200 "odd"])
  = (Returns (StatusNone, Some (UnhandledStatus (Float64 999))),
     snd (getProperty (D := scripted) wallbox state (fresh [ok200 "odd"]))).
Proof.
  assert (Hnone : forall k, In k statusCodes -> PrimFloat.eqb 999 (float64 k) = false).
  { intros k Hin. unfold statusCodes in Hin. simpl in Hin.
    repeat (destruct Hin as [<- | Hin]; [ reflexivity | ]). contradiction. }
  exact (proj2 (Status_rejects_unknown_code (D := scripted) wallbox
                  (fresh [ok200 "odd"])
                  (snd (getProperty (D := scripted) wallbox state (fresh [ok200 "odd"])))
                  999 eq_refl Hnone)).
Defined.

(** The current limit reads 5: the charger is not enabled. *)
Lemma Enabled_compares_witness :
  Enabled (D := scripted) wallbox (fresh [ok200 "paused"])
  = (Returns (false, None),
     snd (getProperty (D := scripted) wallbox maxStationCurrent (fresh [ok200 "paused"]))).
Proof.
  destruct (Enabled_compares_with_switch_off_current (D := scripted) wallbox
              (fresh [ok200 "paused"])
              (snd (getProperty (D := scripted) wallbox maxStationCurrent
                      (fresh [ok200 "paused"])))
              5 eq_refl) as [_ [Hle _]].
  exact (Hle eq_refl).
Defined.


(** ** Further properties of the session handling *)

Section MoreSessionProperties.

Context {D : Device}.

Local Open Scope list_scope.

(** X1. An action whose first execution does not answer 401 -- it fails on
    the network, or answers with any other status -- is not followed by a
    login nor executed again: the call returns that very result in the state
    the action left. *)
Theorem ensureAuthenticated_passes_through
    (c : AlfenHttp) (method : M (Response + error)) (s s1 : St) (r : Response + error) :
  method s = (r, s1) ->
  (forall resp, r = inl resp -> StatusCode resp <> 401) ->
  ensureAuthenticated c method s = (r, s1).
Proof.
  intros Hrun Hnot. rewrite ensureAuthenticated_unfold, Hrun.
  destruct r as [resp | err]; [ | reflexivity ].
  destruct (Z.eqb_spec (StatusCode resp) 401) as [Heq | _]; [ | reflexivity ].
  exfalso. exact (Hnot resp eq_refl Heq).
Qed.

(** X2. [login] is one POST, and it succeeds exactly when that POST is
    answered with status 200 and a body that can be read. *)
Theorem login_succeeds_iff (c : AlfenHttp) (s : St) :
  snd (login c s) = snd (httpDo (login_request c) s) /\
  (fst (login c s) = None <->
   exists resp body,
     fst (httpDo (login_request c) s) = inl resp /\
     StatusCode resp = 200 /\ Body resp = inl body).
Proof.
  rewrite login_unfold.
  destruct (httpDo (login_request c) s) as [[resp | err] s']; simpl.
  - destruct (Z.eqb_spec (StatusCode resp) 200) as [H200 | Hother]; simpl.
    + split; [ reflexivity | ]. destruct (Body resp) as [body | e] eqn:Hbody; split.
      * intros _. exists resp, body. auto.
      * reflexivity.
      * discriminate.
      * intros [resp' [body [Hresp [_ Hb]]]]. injection Hresp as <-. congruence.
    + split; [ reflexivity | ]. split; [ discriminate | ].
      intros [resp' [body [Hresp [Hcode _]]]]. injection Hresp as <-. contradiction.
  - split; [ reflexivity | ]. split; [ discriminate | ].
    intros [resp [body [Hresp _]]]. discriminate.
Qed.

(** X3. [logout] is one POST to the logout endpoint; it fails with the
    transport error, with "logout failed" for any status other than 200, or
    with the read error of the body, and succeeds otherwise. *)
Theorem logout_outcomes (c : AlfenHttp) (s : St) :
  snd (logout c s) = snd (httpDo (logout_request c) s) /\
  (fst (logout c s) = None <->
   exists resp body,
     fst (httpDo (logout_request c) s) = inl resp /\
     StatusCode resp = 200 /\ Body resp = inl body) /\
  (forall resp, fst (httpDo (logout_request c) s) = inl resp ->
     StatusCode resp <> 200 ->
     fst (logout c s) = Some (LogoutFailed (Status_line resp))) /\
  (forall err, fst (httpDo (logout_request c) s) = inr err ->
     fst (logout c s) = Some err).
Proof.
  unfold logout, Post, bind, ret. fold (logout_request c).
  destruct (httpDo (logout_request c) s) as [[resp | err] s']; simpl.
  - destruct (Z.eqb_spec (StatusCode resp) 200) as [H200 | Hother]; simpl.
    + split; [ reflexivity | ]. split; [ | split ].
      * unfold processResponse. destruct (Body resp) as [body | e] eqn:Hbody; simpl; split.
        -- intros _. exists resp, body. auto.
        -- reflexivity.
        -- discriminate.
        -- intros [resp' [body [Hresp [_ Hb]]]]. injection Hresp as <-. congruence.
      * intros resp' Hresp Hcode. injection Hresp as <-. contradiction.
      * discriminate.
    + split; [ reflexivity | ]. split; [ | split ].
      * split; [ discriminate | ].
        intros [resp' [body [Hresp [Hcode _]]]]. injection Hresp as <-. contradiction.
      * intros resp' Hresp _. injection Hresp as <-. reflexivity.
      * discriminate.
  - split; [ reflexivity | ]. split; [ | split ].
    + split; [ discriminate | ]. intros [resp [body [Hresp _]]]. discriminate.
    + discriminate.
    + intros err' Herr. injection Herr as <-. reflexivity.
Qed.

End MoreSessionProperties.

(** ** Further properties of the property writes *)

Section MoreWriteProperties.

Context {D : Device}.

Local Open Scope list_scope.

(** X4. A write reports success exactly when its POST got an answer that is
    not 401, or got 401, the login succeeded and the repeated POST got any
    answer at all.  So it fails only on the network or on the login, never
    because of the status the device answered with. *)
Theorem setProperty_succeeds_iff (c : AlfenHttp) (property value : string) (s : St) :
  let req := setProperty_request c property value in
  let s1 := snd (httpDo req s) in
  let s2 := snd (login c s1) in
  fst (setProperty c property value s) = None <->
  exists resp,
    fst (httpDo req s) = inl resp /\
    (StatusCode resp <> 401 \/
     (StatusCode resp = 401 /\ fst (login c s1) = None /\
      exists resp', fst (httpDo req s2) = inl resp')).
Proof.
  intros req s1 s2. subst req s1 s2.
  rewrite setProperty_unfold, ensureAuthenticated_unfold.
  destruct (httpDo (setProperty_request c property value) s) as [[resp | err] s1]; simpl.
  - destruct (Z.eqb_spec (StatusCode resp) 401) as [H401 | Hother].
    + destruct (login c s1) as [[e | ] s2]; simpl.
      * split; [ discriminate | ].
        intros [resp0 [Hresp [Hne | [_ [Hl _]]]]];
          [ injection Hresp as <-; contradiction | discriminate ].
      * destruct (httpDo (setProperty_request c property value) s2)
          as [[resp' | err'] s3]; simpl; split.
        -- intros _. exists resp. split; [ reflexivity | right ]. eauto.
        -- reflexivity.
        -- discriminate.
        -- intros [resp0 [Hresp [Hne | [_ [_ [resp' Hr]]]]]];
             [ injection Hresp as <-; contradiction | discriminate ].
    + simpl. split; [ | reflexivity ].
      intros _. exists resp. auto.
  - split; [ discriminate | ]. intros [resp [Hresp _]]. discriminate.
Qed.

(** What one write sends: one to three requests, all of them POSTs. *)
Lemma setProperty_sent (c : AlfenHttp) (property value : string) (s : St) :
  exists sent,
    trace (snd (setProperty c property value s)) = trace s ++ sent /\
    (1 <= List.length sent <= 3)%nat /\
    Forall (fun r => req_method r = POST) sent.
Proof.
  destruct (setProperty_trace c property value s) as [more [Ht Hmore]].
  exists (setProperty_request c property value :: more). split; [ exact Ht | ].
  destruct Hmore as [-> | [-> | ->]]; simpl; split; try lia;
    repeat constructor.
Qed.


Lemma setProperty_keeps (c : AlfenHttp) (property value : string) (s : St) :
  cache (snd (setProperty c property value s)) = cache s /\
  clock (snd (setProperty c property value s)) = clock s.
Proof.
  rewrite setProperty_unfold.
  pose proof (ensureAuthenticated_keeps c (setProperty_request c property value) s) as Hk.
  destruct (ensureAuthenticated c _ s) as [[resp | err] s']; exact Hk.
Qed.

Lemma logout_keeps (c : AlfenHttp) (s : St) :
  cache (snd (logout c s)) = cache s /\ clock (snd (logout c s)) = clock s.
Proof.
  unfold logout, Post, bind, ret. fold (logout_request c).
  pose proof (httpDo_keeps (logout_request c) s) as Hk.
  destruct (httpDo (logout_request c) s) as [[resp | err] s']; simpl in *;
    [ destruct (negb (StatusCode resp =? 200)) | ]; exact Hk.
Qed.

Lemma Phases1p3p_keeps (c : AlfenHttp) (phases : Z) (s : St) :
  cache (snd (Phases1p3p c phases s)) = cache s /\
  clock (snd (Phases1p3p c phases s)) = clock s.
Proof.
  rewrite Phases1p3p_unfold.
  pose proof (setProperty_keeps c loadBalancingEnablePhaseSwitching statusOn s) as [H1 H1'].
  destruct (setProperty c loadBalancingEnablePhaseSwitching statusOn s) as [[e | ] s1];
    simpl in *; [ auto | ].
  pose proof (setProperty_keeps c installationMaxAllowedPhases (Sprint phases) s1)
    as [H2 H2'].
  split; congruence.
Qed.

(** X6. No write touches the memo of the property cache: after [setProperty],
    [MaxCurrent], [Enable], [Phases1p3p] and [Shutdown] the memoized snapshot
    and its time stamp are what they were, so a write never refreshes or
    invalidates what the reads are served from. *)
Theorem writes_keep_the_memo (c : AlfenHttp) (s : St) :
  (forall property value, cache (snd (setProperty c property value s)) = cache s) /\
  (forall current, cache (snd (MaxCurrent c current s)) = cache s) /\
  (forall enable, cache (snd (Enable c enable s)) = cache s) /\
  (forall phases, cache (snd (Phases1p3p c phases s)) = cache s) /\
  cache (snd (Shutdown c s)) = cache s.
Proof.
  repeat split.
  - intros property value. apply setProperty_keeps.
  - intros current. apply setProperty_keeps.
  - intros [ | ]; apply setProperty_keeps.
  - intros phases. apply Phases1p3p_keeps.
  - rewrite Shutdown_unfold. simpl.
    destruct (logout_keeps c (snd (MaxCurrent c maxCurrent (snd (Phases1p3p c 3 s)))))
      as [H3 _].
    destruct (setProperty_keeps c maxStationCurrent (Sprint maxCurrent)
                (snd (Phases1p3p c 3 s))) as [H2 _].
    destruct (Phases1p3p_keeps c 3 s) as [H1 _].
    unfold MaxCurrent in *. congruence.
Qed.

(** X7. One [Shutdown] sends at least three and at most ten requests, every
    one of them a POST: it reads nothing from the device. *)
Theorem Shutdown_sends_few_posts (c : AlfenHttp) (s : St) :
  exists sent,
    trace (snd (Shutdown c s)) = trace s ++ sent /\
    (3 <= List.length sent <= 10)%nat /\
    Forall (fun r => req_method r = POST) sent.
Proof.
  rewrite Shutdown_unfold. simpl. rewrite logout_trace. unfold MaxCurrent.
  assert (Hphases : exists sent1,
             trace (snd (Phases1p3p c 3 s)) = trace s ++ sent1 /\
             (1 <= List.length sent1 <= 6)%nat /\
             Forall (fun r => req_method r = POST) sent1).
  { rewrite Phases1p3p_unfold.
    destruct (setProperty_sent c loadBalancingEnablePhaseSwitching statusOn s)
      as [l1 [Ht1 [Hn1 Hp1]]].
    destruct (setProperty c loadBalancingEnablePhaseSwitching statusOn s) as [[e | ] s1];
      simpl in *.
    - exists l1. repeat split; try assumption; lia.
    - destruct (setProperty_sent c installationMaxAllowedPhases (Sprint 3) s1)
        as [l2 [Ht2 [Hn2 Hp2]]].
      exists (l1 ++ l2). rewrite Ht2, Ht1, <- app_assoc, length_app.
      repeat split; try lia. apply Forall_app. auto. }
  destruct Hphases as [sent1 [Ht1 [Hn1 Hp1]]].
  destruct (setProperty_sent c maxStationCurrent (Sprint maxCurrent)
              (snd (Phases1p3p c 3 s))) as [sent2 [Ht2 [Hn2 Hp2]]].
  exists (sent1 ++ sent2 ++ [logout_request c]).
  rewrite Ht2, Ht1, <- !app_assoc, !length_app. simpl.
  repeat split; try lia.
  apply Forall_app. split; [ exact Hp1 | ].
  apply Forall_app. split; [ exact Hp2 | ].
  repeat constructor.
Qed.

End MoreWriteProperties.

(** ** Further properties of the reads *)

Section MoreReadProperties.

Context {D : Device}.

Local Open Scope list_scope.

(** X8. [getProperties] returns a snapshot exactly when the authenticated GET
    ended with a response of status 200 whose body could be read and decoded;
    the snapshot is then the decoding of that body. *)
Theorem getProperties_succeeds_iff (c : AlfenHttp) (s : St) (props : Properties) :
  fst (getProperties c s) = inl props <->
  exists resp body,
    fst (ensureAuthenticated c (httpDo (getProperties_request c)) s) = inl resp /\
    StatusCode resp = 200 /\
    Body resp = inl body /\
    unmarshalProperties body = inl props.
Proof.
  rewrite getProperties_unfold.
  destruct (ensureAuthenticated c (httpDo (getProperties_request c)) s)
    as [[resp | err] s']; simpl.
  - destruct (Z.eqb_spec (StatusCode resp) 200) as [H200 | Hother].
    + destruct (Body resp) as [body | e] eqn:Hbody; simpl; split.
      * intros Hdec. exists resp, body. auto.
      * intros [resp' [body' [Hresp [_ [Hb Hdec]]]]].
        injection Hresp as <-. rewrite Hbody in Hb. injection Hb as <-. exact Hdec.
      * discriminate.
      * intros [resp' [body' [Hresp [_ [Hb _]]]]].
        injection Hresp as <-. congruence.
    + simpl. split; [ discriminate | ].
      intros [resp' [body' [Hresp [Hcode _]]]]. injection Hresp as <-. contradiction.
  - split; [ discriminate | ]. intros [resp [body [Hresp _]]]. discriminate.
Qed.

(** X9. A bulk read that is answered 401 again after a successful login fails
    with "error getting properties" carrying the status line of that second
    answer, after exactly three requests; the body is not decoded. *)
Theorem getProperties_still_unauthorized
    (c : AlfenHttp) (s s1 s2 s3 : St) (resp resp' : Response) :
  httpDo (getProperties_request c) s = (inl resp, s1) ->
  StatusCode resp = 401 ->
  login c s1 = (None, s2) ->
  httpDo (getProperties_request c) s2 = (inl resp', s3) ->
  StatusCode resp' = 401 ->
  getProperties c s = (inr (ErrorGettingProperties (Status_line resp')), s3) /\
  trace s3 = trace s ++ [getProperties_request c; login_request c; getProperties_request c].
Proof.
  intros Hfirst Hcode Hlogin Hretry Hcode'. split.
  - rewrite getProperties_unfold, ensureAuthenticated_unfold, Hfirst, Hcode. simpl.
    rewrite Hlogin, Hretry, Hcode'. reflexivity.
  - pose proof (httpDo_trace (getProperties_request c) s) as H1.
    pose proof (login_trace c s1) as H2.
    pose proof (httpDo_trace (getProperties_request c) s2) as H3.
    rewrite Hfirst in H1. rewrite Hlogin in H2. rewrite Hretry in H3. simpl in *.
    rewrite H3, H2, H1, <- !app_assoc. reflexivity.
Qed.

Lemma findProperty_skips (id : string) (before rest : list Property) :
  Forall (fun q => Id q <> id) before ->
  findProperty id (before ++ rest) = findProperty id rest.
Proof.
  induction 1 as [ | q before Hq _ IH]; simpl; [ reflexivity | ].
  destruct (String.eqb_spec (Id q) id); [ contradiction | exact IH ].
Qed.

Lemma findProperty_none (id : string) (props : list Property) :
  findProperty id props = None <-> Forall (fun q => Id q <> id) props.
Proof.
  induction props as [ | q props IH]; simpl.
  - split; [ constructor | reflexivity ].
  - destruct (String.eqb_spec (Id q) id) as [Heq | Hne]; split.
    + discriminate.
    + intros Hall. inversion Hall; contradiction.
    + intros Hnone. constructor; [ exact Hne | apply IH; exact Hnone ].
    + intros Hall. inversion Hall; subst. apply IH. assumption.
Qed.

(** X10. [getProperty] answers with the value of the first property of the
    snapshot that carries the requested id: properties before it with other
    ids are skipped, and a later property with the same id is never seen. *)
Theorem getProperty_first_match
    (c : AlfenHttp) (id : string) (s s' : St) (props : Properties)
    (before after : list Property) (p : Property) :
  getPropertiesG c s = (inl props, s') ->
  PropertyList props = before ++ p :: after ->
  Forall (fun q => Id q <> id) before ->
  Id p = id ->
  getProperty c id s = ((Value p, None), s').
Proof.
  intros Hsnap Hlist Hbefore Hid. unfold getProperty, bind, ret. rewrite Hsnap, Hlist.
  rewrite (findProperty_skips _ _ _ Hbefore). simpl.
  destruct (String.eqb_spec (Id p) id); [ reflexivity | contradiction ].
Qed.

(** X11. [getProperty] fails with "unable to get property", carrying the id
    and the snapshot, exactly when no property of the snapshot has the id; the
    value it returns then is the empty string.  A value returned without error
    is the value of a property of the snapshot with that id. *)
Theorem getProperty_not_found_iff
    (c : AlfenHttp) (id : string) (s s' : St) (props : Properties) :
  getPropertiesG c s = (inl props, s') ->
  snd (getProperty c id s) = s' /\
  (fst (getProperty c id s) = (Str "", Some (UnableToGetProperty id props)) <->
   Forall (fun q => Id q <> id) (PropertyList props)) /\
  (forall v, fst (getProperty c id s) = (v, None) ->
     exists p, In p (PropertyList props) /\ Id p = id /\ Value p = v).
Proof.
  intros Hsnap. unfold getProperty, bind, ret. rewrite Hsnap.
  destruct (findProperty id (PropertyList props)) as [v0 | ] eqn:Hfind; simpl.
  - split; [ reflexivity | split ].
    + split; [ discriminate | ].
      intros Hall. apply findProperty_none in Hall. congruence.
    + intros v Hv. injection Hv as <-.
      clear Hsnap. induction (PropertyList props) as [ | q l IH]; simpl in Hfind;
        [ discriminate | ].
      destruct (String.eqb_spec (Id q) id) as [Heq | Hne].
      * injection Hfind as <-. exists q. simpl. auto.
      * destruct (IH Hfind) as [p [Hin Hp]]. exists p. simpl. auto.
  - split; [ reflexivity | split ].
    + split; [ intros _; apply findProperty_none; exact Hfind | reflexivity ].
    + discriminate.
Qed.

Lemma getInfo_unfold (c : AlfenHttp) (s : St) :
  getInfo c s =
  match ensureAuthenticated c (httpDo (getInfo_request c)) s with
  | (inr err, s') => (inr err, s')
  | (inl resp, s') =>
      if StatusCode resp =? 200
      then match Body resp with
           | inr err => (inr err, s')
           | inl body => (unmarshalInfo body, s')
           end
      else (inr (ErrorGettingInfo (Status_line resp)), s')
  end.
Proof.
  unfold getInfo, Get, getInfo_request, bind, ret.
  destruct (ensureAuthenticated c _ s) as [[resp | err] s']; [ | reflexivity ].
  destruct (StatusCode resp =? 200); simpl; [ | reflexivity ].
  destruct (Body resp) as [body | err]; [ | reflexivity ].
  destruct (unmarshalInfo body); reflexivity.
Qed.

(** X12. [getInfo] is not served from any memo: every call sends the GET of
    the info endpoint first (then at most a login and the GET once more), it
    leaves the memo of the property cache alone, and an answer with a status
    other than 200 is the error "error getting info" with its status line. *)
Theorem getInfo_always_asks (c : AlfenHttp) (s : St) :
  (exists more,
     trace (snd (getInfo c s)) = trace s ++ getInfo_request c :: more /\
     (more = [] \/ more = [login_request c] \/
      more = [login_request c; getInfo_request c])) /\
  cache (snd (getInfo c s)) = cache s /\
  (forall resp,
     fst (ensureAuthenticated c (httpDo (getInfo_request c)) s) = inl resp ->
     StatusCode resp <> 200 ->
     fst (getInfo c s) = inr (ErrorGettingInfo (Status_line resp))).
Proof.
  rewrite getInfo_unfold.
  destruct (ensureAuthenticated_trace c (getInfo_request c) s) as [more [Ht Hmore]].
  destruct (ensureAuthenticated_keeps c (getInfo_request c) s) as [Hc _].
  destruct (ensureAuthenticated c _ s) as [[resp | err] s']; simpl in *.
  - destruct (Z.eqb_spec (StatusCode resp) 200) as [H200 | Hother].
    + destruct (Body resp); simpl; (split; [ eauto | split; [ exact Hc | ] ]);
        intros resp' Hresp Hcode; injection Hresp as <-; contradiction.
    + simpl. split; [ eauto | split; [ exact Hc | ] ].
      intros resp' Hresp _. injection Hresp as <-. reflexivity.
  - split; [ eauto | split; [ exact Hc | discriminate ] ].
Qed.

End MoreReadProperties.

(** ** Further properties of the decoding *)

Section MoreDecodingProperties.

Context {D : Device}.

Local Open Scope list_scope.

(** A [float64] equal to a positive finite one is that one. *)
Lemma SFeqb_finite_positive (x : spec_float) (m : positive) (e : Z) :
  SFeqb x (S754_finite false m e) = true -> x = S754_finite false m e.
Proof.
  unfold SFeqb, SFcompare.
  destruct x as [sx | sx | | sx mx ex]; try destruct sx; simpl; try discriminate.
  destruct (Z.compare_spec ex e) as [-> | _ | _]; try discriminate.
  change (PosDef.Pos.compare_cont Eq mx m) with (Pos.compare mx m).
  destruct (Pos.compare_spec mx m) as [-> | _ | _]; try discriminate.
  reflexivity.
Qed.

(** Two different codes of the [switch] never both equal the value read. *)
Lemma status_codes_exclusive (f : float) (k1 k2 : Z) :
  In k1 statusCodes -> In k2 statusCodes -> k1 <> k2 ->
  PrimFloat.eqb f (float64 k1) = true -> PrimFloat.eqb f (float64 k2) = false.
Proof.
  intros H1 H2 Hne. rewrite !eqb_spec.
  unfold statusCodes in H1, H2. simpl in H1, H2.
  repeat (destruct H1 as [<- | H1]);
    try contradiction;
    (repeat (destruct H2 as [<- | H2]); try contradiction; try congruence);
    intros Heq;
    (match type of Heq with
     | SFeqb _ (Prim2SF ?y) = true =>
         let v := eval vm_compute in (Prim2SF y) in
         change (Prim2SF y) with v in Heq
     end);
    apply SFeqb_finite_positive in Heq; rewrite Heq; vm_compute; reflexivity.
Qed.

Lemma isCase_true (f : float) (codes : list Z) :
  isCase f codes = true <-> exists k, In k codes /\ PrimFloat.eqb f (float64 k) = true.
Proof.
  unfold isCase. apply existsb_exists.
Qed.

Lemma isCase_exclusive (f : float) (codes1 codes2 : list Z) :
  incl codes1 statusCodes -> incl codes2 statusCodes ->
  (forall k, In k codes1 -> ~ In k codes2) ->
  isCase f codes1 = true -> isCase f codes2 = false.
Proof.
  intros Hin1 Hin2 Hdisj H1.
  apply isCase_true in H1. destruct H1 as [k1 [Hk1 He1]].
  destruct (isCase f codes2) eqn:H2; [ | reflexivity ].
  apply isCase_true in H2. destruct H2 as [k2 [Hk2 He2]].
  assert (Hne : k1 <> k2) by (intros ->; exact (Hdisj k2 Hk1 Hk2)).
  rewrite (status_codes_exclusive f k1 k2 (Hin1 _ Hk1) (Hin2 _ Hk2) Hne He1) in He2.
  discriminate.
Qed.

(** X13. The cases of the [switch] in [Status] do not overlap, so their order
    plays no part: a number read without error is given status A, B, C or E
    exactly when it equals one of the codes of that case, and the "unhandled
    status" error exactly when it equals none of the twelve codes. *)
Theorem Status_of_number_iff (f : float) :
  (Status_of (Float64 f) None = Returns (StatusA, None)
   <-> isCase f [available] = true) /\
  (Status_of (Float64 f) None = Returns (StatusB, None)
   <-> isCase f [cableConnected; evConnected; preparingCharging; waitVehicleCharging;
                 finishWaitVehicle; finishWaitDisconnect; loadBalancingForcedOff] = true) /\
  (Status_of (Float64 f) None = Returns (StatusC, None)
   <-> isCase f [chargingNormal] = true) /\
  (Status_of (Float64 f) None = Returns (StatusE, None)
   <-> isCase f [errorCharging; errorTooManyRestarts; inoperative] = true) /\
  (Status_of (Float64 f) None = Returns (StatusNone, Some (UnhandledStatus (Float64 f)))
   <-> isCase f statusCodes = false).
Proof.
  set (cA := [available]).
  set (cB := [cableConnected; evConnected; preparingCharging; waitVehicleCharging;
              finishWaitVehicle; finishWaitDisconnect; loadBalancingForcedOff]).
  set (cC := [chargingNormal]).
  set (cE := [errorCharging; errorTooManyRestarts; inoperative]).
  assert (Hall : isCase f statusCodes
                 = isCase f cA || isCase f cB || isCase f cC || isCase f cE).
  { change statusCodes with (cA ++ cB ++ cC ++ cE).
    unfold isCase. rewrite !existsb_app, !orb_assoc. reflexivity. }
  assert (Hincl : incl cA statusCodes /\ incl cB statusCodes /\
                  incl cC statusCodes /\ incl cE statusCodes).
  { unfold incl, cA, cB, cC, cE, statusCodes. simpl. intuition. }
  destruct Hincl as [HiA [HiB [HiC HiE]]].
  pose proof (isCase_exclusive f) as Hdisj.
  assert (HAB : isCase f cA = true -> isCase f cB = false).
  { apply Hdisj; auto. unfold cA, cB. simpl. intros k [<- | []]. intuition discriminate. }
  assert (HAC : isCase f cA = true -> isCase f cC = false).
  { apply Hdisj; auto. unfold cA, cC. simpl. intros k [<- | []]. intuition discriminate. }
  assert (HAE : isCase f cA = true -> isCase f cE = false).
  { apply Hdisj; auto. unfold cA, cE. simpl. intros k [<- | []]. intuition discriminate. }
  assert (HBC : isCase f cB = true -> isCase f cC = false).
  { apply Hdisj; auto. unfold cB, cC. simpl.
    intros k Hk [<- | []]. intuition discriminate. }
  assert (HBE : isCase f cB = true -> isCase f cE = false).
  { apply Hdisj; auto. unfold cB, cE. simpl.
    intros k Hk Hk'. intuition (subst; discriminate). }
  assert (HCE : isCase f cC = true -> isCase f cE = false).
  { apply Hdisj; auto. unfold cC, cE. simpl. intros k [<- | []]. intuition discriminate. }
  unfold Status_of. fold cA cB cC cE. rewrite Hall.
  destruct (isCase f cA), (isCase f cB), (isCase f cC), (isCase f cE); simpl;
    try (specialize (HAB eq_refl)); try (specialize (HAC eq_refl));
    try (specialize (HAE eq_refl)); try (specialize (HBC eq_refl));
    try (specialize (HBE eq_refl)); try (specialize (HCE eq_refl));
    try discriminate;
    repeat split; intros; try reflexivity; try discriminate.
Qed.

(** X14. [Status] never returns a status together with an error, nor the
    empty status without one; and it panics only when the read succeeded with
    a value that is not a number. *)
Theorem Status_of_status_xor_error (value : JSONValue) (err : option error) :
  match Status_of value err with
  | Returns (status, err') => status = StatusNone <-> err' <> None
  | Panics _ => err = None /\ forall f, value <> Float64 f
  end.
Proof.
  unfold Status_of. destruct err as [e | ].
  - split; [ discriminate | reflexivity ].
  - destruct value as [f | str | b | | raw];
      try (split; [ reflexivity | discriminate ]).
    repeat match goal with
           | |- context [if ?b then _ else _] => destruct b
           end;
      split; intros H; try discriminate; try reflexivity; try (exfalso; apply H; reflexivity).
Qed.

Lemma GetMaxCurrent_unfold (c : AlfenHttp) (s : St) :
  GetMaxCurrent c s
  = (match snd (fst (getProperty c maxStationCurrent s)) with
     | Some e => Returns (PrimFloat.zero, Some e)
     | None =>
         match fst (fst (getProperty c maxStationCurrent s)) with
         | Float64 f => Returns (f, None)
         | _ => Panics "interface conversion: interface {} is not float64"
         end
     end,
     snd (getProperty c maxStationCurrent s)).
Proof.
  unfold GetMaxCurrent, bind, ret.
  destruct (getProperty c maxStationCurrent s) as [[v [e | ]] s']; simpl;
    [ reflexivity | destruct v; reflexivity ].
Qed.

(** X15. [Enabled] is [GetMaxCurrent] compared with the switch-off current:
    from the same state both make the same read, and [Enabled] returns
    [5 < f] where [GetMaxCurrent] returns [f], false with the same error where
    it fails, and panics where it panics. *)
Theorem Enabled_agrees_with_GetMaxCurrent (c : AlfenHttp) (s : St) :
  snd (Enabled c s) = snd (GetMaxCurrent c s) /\
  match fst (GetMaxCurrent c s) with
  | Returns (f, None) => fst (Enabled c s) = Returns (PrimFloat.ltb 5 f, None)
  | Returns (_, Some e) => fst (Enabled c s) = Returns (false, Some e)
  | Panics msg => fst (Enabled c s) = Panics msg
  end.
Proof.
  rewrite Enabled_unfold, GetMaxCurrent_unfold. simpl. split; [ reflexivity | ].
  destruct (getProperty c maxStationCurrent s) as [[v [e | ]] s']; simpl;
    [ reflexivity | destruct v; reflexivity ].
Qed.

(** X16. The two values [Enable] writes are on the two sides of the threshold
    of [Enabled]: [Enable] with true is [MaxCurrent] with 16, with false it is
    [MaxCurrent] with 5, and a current limit that reads as the value written
    makes [Enabled] return the flag that was given. *)
Theorem Enable_then_Enabled_round_trip (c : AlfenHttp) (enable : bool) :
  let current := if enable then maxCurrent else switchOffCurrent in
  Enable c enable = MaxCurrent c current /\
  (forall s, exists more,
     trace (snd (Enable c enable s))
       = trace s ++ setProperty_request c maxStationCurrent (if enable then "16" else "5")
                    :: more) /\
  Enabled_of (Float64 (float64 current)) None = Returns (enable, None).
Proof.
  destruct enable; simpl; (split; [ reflexivity | split; [ | reflexivity ] ]);
    intros s; unfold Enable, MaxCurrent.
  - destruct (setProperty_trace c maxStationCurrent (Sprint maxCurrent) s) as [more [Ht _]].
    exists more. exact Ht.
  - destruct (setProperty_trace c maxStationCurrent (Sprint switchOffCurrent) s)
      as [more [Ht _]].
    exists more. exact Ht.
Qed.

Lemma small_currents_checked :
  forallb (fun k => Bool.eqb (PrimFloat.ltb 5 (float64 (Z.of_nat k - 1024)))
                             (5 <? Z.of_nat k - 1024))
          (seq 0 (Z.to_nat 2048)) = true.
Proof. vm_compute. reflexivity. Qed.

(** X17. For every current of magnitude below 1024, a limit that reads as the
    number given to [MaxCurrent] makes [Enabled] return true exactly when that
    number is above 5: setting 5 A or less reads as switched off. *)
Theorem Enabled_after_MaxCurrent (current : Z) :
  -1024 <= current < 1024 ->
  Enabled_of (Float64 (float64 current)) None = Returns (5 <? current, None).
Proof.
  intros Hrange. unfold Enabled_of.
  change (float64 switchOffCurrent) with 5%float.
  pose proof small_currents_checked as Hall.
  rewrite forallb_forall in Hall.
  assert (Hin : In (Z.to_nat (current + 1024)) (seq 0 (Z.to_nat 2048)))
    by (apply in_seq; lia).
  specialize (Hall _ Hin).
  rewrite Z2Nat.id in Hall by lia.
  replace (current + 1024 - 1024) with current in Hall by lia.
  rewrite (eqb_prop _ _ Hall). reflexivity.
Qed.

Lemma readThree_unfold (c : AlfenHttp) (id1 id2 id3 : string) (s : St) :
  readThree c id1 id2 id3 s =
  match getProperty c id1 s with
  | ((_, Some e), s1) => (Returns (PrimFloat.zero, PrimFloat.zero, PrimFloat.zero, Some e), s1)
  | ((v1, None), s1) =>
      match getProperty c id2 s1 with
      | ((_, Some e), s2) =>
          (Returns (PrimFloat.zero, PrimFloat.zero, PrimFloat.zero, Some e), s2)
      | ((v2, None), s2) =>
          match getProperty c id3 s2 with
          | ((_, Some e), s3) =>
              (Returns (PrimFloat.zero, PrimFloat.zero, PrimFloat.zero, Some e), s3)
          | ((v3, None), s3) => (threeFloats v1 v2 v3, s3)
          end
      end
  end.
Proof.
  unfold readThree, bind, ret.
  destruct (getProperty c id1 s) as [[v1 [e1 | ]] s1]; simpl; [ reflexivity | ].
  destruct (getProperty c id2 s1) as [[v2 [e2 | ]] s2]; simpl; [ reflexivity | ].
  destruct (getProperty c id3 s2) as [[v3 [e3 | ]] s3]; reflexivity.
Qed.

Lemma threeFloats_returns (v1 v2 v3 : JSONValue) (f1 f2 f3 : float) (err : option error) :
  threeFloats v1 v2 v3 = Returns (f1, f2, f3, err) ->
  v1 = Float64 f1 /\ v2 = Float64 f2 /\ v3 = Float64 f3 /\ err = None.
Proof.
  unfold threeFloats. destruct v1, v2, v3; try discriminate.
  intros H. injection H as <- <- <- <-. auto.
Qed.

(** The case analysis shared by [Currents] and [Voltages]: the three reads are
    taken apart one after the other. *)
Ltac three_reads c id1 id2 id3 s :=
  rewrite readThree_unfold; repeat apply conj;
  [ intros v e s1 Hread; rewrite Hread; reflexivity
  | intros v1 s1 v e s2 Hread1 Hread2; rewrite Hread1, Hread2; reflexivity
  | intros v1 s1 v2 s2 v e s3 Hread1 Hread2 Hread3;
    rewrite Hread1, Hread2, Hread3; reflexivity
  | intros v1 s1 v2 s2 v3 s3 Hread1 Hread2 Hread3;
    rewrite Hread1, Hread2, Hread3; reflexivity
  | intros f1 f2 f3 e s';
    destruct (getProperty c id1 s) as [[v1 [e1 | ]] s1];
      [ intros H; injection H as <- <- <- _ _; auto | ];
    destruct (getProperty c id2 s1) as [[v2 [e2 | ]] s2];
      [ intros H; injection H as <- <- <- _ _; auto | ];
    destruct (getProperty c id3 s2) as [[v3 [e3 | ]] s3];
      [ intros H; injection H as <- <- <- _ _; auto | ];
    intros H; injection H as H _;
    apply threeFloats_returns in H; destruct H as [_ [_ [_ H]]]; discriminate
  | intros f1 f2 f3 s';
    destruct (getProperty c id1 s) as [[v1 [e1 | ]] s1]; [ discriminate | ];
    destruct (getProperty c id2 s1) as [[v2 [e2 | ]] s2] eqn:H2; [ discriminate | ];
    destruct (getProperty c id3 s2) as [[v3 [e3 | ]] s3] eqn:H3; [ discriminate | ];
    intros H; injection H as H <-;
    apply threeFloats_returns in H; destruct H as [-> [-> [-> _]]];
    exists s1, s2; auto ].

(** X18. [Currents] reads L1, L2 and L3 in this order and stops at the first
    read that fails, whichever it is: the result is then the error of that
    read with three zeros, in the state that read left, so that no later
    phase is read.  When all three reads succeed the result is the three
    values asserted to be numbers, in the state the third read left.  Hence it
    never returns an error together with a measured value, and values without
    error are the numbers the three reads returned, one after the other. *)
Theorem Currents_all_or_nothing (c : AlfenHttp) (s : St) :
  (forall v e s1,
     getProperty c currentL1Socket1 s = ((v, Some e), s1) ->
     Currents c s = (Returns (PrimFloat.zero, PrimFloat.zero, PrimFloat.zero, Some e), s1)) /\
  (forall v1 s1 v e s2,
     getProperty c currentL1Socket1 s = ((v1, None), s1) ->
     getProperty c currentL2Socket1 s1 = ((v, Some e), s2) ->
     Currents c s = (Returns (PrimFloat.zero, PrimFloat.zero, PrimFloat.zero, Some e), s2)) /\
  (forall v1 s1 v2 s2 v e s3,
     getProperty c currentL1Socket1 s = ((v1, None), s1) ->
     getProperty c currentL2Socket1 s1 = ((v2, None), s2) ->
     getProperty c currentL3Socket1 s2 = ((v, Some e), s3) ->
     Currents c s = (Returns (PrimFloat.zero, PrimFloat.zero, PrimFloat.zero, Some e), s3)) /\
  (forall v1 s1 v2 s2 v3 s3,
     getProperty c currentL1Socket1 s = ((v1, None), s1) ->
     getProperty c currentL2Socket1 s1 = ((v2, None), s2) ->
     getProperty c currentL3Socket1 s2 = ((v3, None), s3) ->
     Currents c s = (threeFloats v1 v2 v3, s3)) /\
  (forall f1 f2 f3 e s',
     Currents c s = (Returns (f1, f2, f3, Some e), s') ->
     f1 = PrimFloat.zero /\ f2 = PrimFloat.zero /\ f3 = PrimFloat.zero) /\
  (forall f1 f2 f3 s',
     Currents c s = (Returns (f1, f2, f3, None), s') ->
     exists s1 s2,
       getProperty c currentL1Socket1 s = ((Float64 f1, None), s1) /\
       getProperty c currentL2Socket1 s1 = ((Float64 f2, None), s2) /\
       getProperty c currentL3Socket1 s2 = ((Float64 f3, None), s')).
Proof.
  unfold Currents.
  three_reads c currentL1Socket1 currentL2Socket1 currentL3Socket1 s.
Qed.

(** X19. [Voltages] behaves in the same way on the three voltage ids: it stops
    at the first failing read, whichever it is, and returns the error of that
    read with three zeros in the state that read left; when all three reads
    succeed the result is the three values asserted to be numbers.  It never
    returns an error together with a measured value. *)
Theorem Voltages_all_or_nothing (c : AlfenHttp) (s : St) :
  (forall v e s1,
     getProperty c voltageL1Socket1 s = ((v, Some e), s1) ->
     Voltages c s = (Returns (PrimFloat.zero, PrimFloat.zero, PrimFloat.zero, Some e), s1)) /\
  (forall v1 s1 v e s2,
     getProperty c voltageL1Socket1 s = ((v1, None), s1) ->
     getProperty c voltageL2Socket1 s1 = ((v, Some e), s2) ->
     Voltages c s = (Returns (PrimFloat.zero, PrimFloat.zero, PrimFloat.zero, Some e), s2)) /\
  (forall v1 s1 v2 s2 v e s3,
     getProperty c voltageL1Socket1 s = ((v1, None), s1) ->
     getProperty c voltageL2Socket1 s1 = ((v2, None), s2) ->
     getProperty c voltageL3Socket1 s2 = ((v, Some e), s3) ->
     Voltages c s = (Returns (PrimFloat.zero, PrimFloat.zero, PrimFloat.zero, Some e), s3)) /\
  (forall v1 s1 v2 s2 v3 s3,
     getProperty c voltageL1Socket1 s = ((v1, None), s1) ->
     getProperty c voltageL2Socket1 s1 = ((v2, None), s2) ->
     getProperty c voltageL3Socket1 s2 = ((v3, None), s3) ->
     Voltages c s = (threeFloats v1 v2 v3, s3)) /\
  (forall f1 f2 f3 e s',
     Voltages c s = (Returns (f1, f2, f3, Some e), s') ->
     f1 = PrimFloat.zero /\ f2 = PrimFloat.zero /\ f3 = PrimFloat.zero) /\
  (forall f1 f2 f3 s',
     Voltages c s = (Returns (f1, f2, f3, None), s') ->
     exists s1 s2,
       getProperty c voltageL1Socket1 s = ((Float64 f1, None), s1) /\
       getProperty c voltageL2Socket1 s1 = ((Float64 f2, None), s2) /\
       getProperty c voltageL3Socket1 s2 = ((Float64 f3, None), s')).
Proof.
  unfold Voltages.
  three_reads c voltageL1Socket1 voltageL2Socket1 voltageL3Socket1 s.
Qed.

(** The common ending of the numeric getters, on the pair a read returned. *)
Lemma assert_number_outcomes {A : Type} (zero : A) (conv : float -> A)
    (r : JSONValue * option error) :
  let out :=
    match snd r with
    | Some e => Returns (zero, Some e)
    | None =>
        match fst r with
        | Float64 f => Returns (conv f, None)
        | _ => Panics "interface conversion: interface {} is not float64"
        end
    end in
  ((exists msg, out = Panics msg) <-> snd r = None /\ forall f, fst r <> Float64 f) /\
  (forall e, snd r = Some e -> out = Returns (zero, Some e)).
Proof.
  destruct r as [v [e | ]]; simpl.
  - split.
    + split; [ intros [msg H]; discriminate | intros [H _]; discriminate ].
    + intros e' He. injection He as <-. reflexivity.
  - split; [ | discriminate ].
    destruct v as [f | str | b | | raw];
      try (split; [ intros _; split; [ reflexivity | intros f; discriminate ]
                  | intros _; eexists; reflexivity ]).
    split; [ intros [msg H]; discriminate | ].
    intros [_ Hnot]. exfalso. exact (Hnot f eq_refl).
Qed.

(** X22. The numeric getters panic exactly when their read succeeded with a
    value that is not a number; when the read failed they return zero (false
    for [Enabled]) with the error of the read, whatever value came with it. *)
Theorem numeric_getters_panic_iff (c : AlfenHttp) (s : St) :
  let notNumber (r : JSONValue * option error) :=
    snd r = None /\ forall f, fst r <> Float64 f in
  ((exists msg, fst (GetMaxCurrent c s) = Panics msg)
   <-> notNumber (fst (getProperty c maxStationCurrent s))) /\
  ((exists msg, fst (Enabled c s) = Panics msg)
   <-> notNumber (fst (getProperty c maxStationCurrent s))) /\
  ((exists msg, fst (CurrentPower c s) = Panics msg)
   <-> notNumber (fst (getProperty c activePowerTotal s))) /\
  ((exists msg, fst (TotalEnergy c s) = Panics msg)
   <-> notNumber (fst (getProperty c meterReadingSocket1 s))) /\
  (forall e, snd (fst (getProperty c maxStationCurrent s)) = Some e ->
     fst (GetMaxCurrent c s) = Returns (PrimFloat.zero, Some e) /\
     fst (Enabled c s) = Returns (false, Some e)) /\
  (forall e, snd (fst (getProperty c activePowerTotal s)) = Some e ->
     fst (CurrentPower c s) = Returns (PrimFloat.zero, Some e)) /\
  (forall e, snd (fst (getProperty c meterReadingSocket1 s)) = Some e ->
     fst (TotalEnergy c s) = Returns (PrimFloat.zero, Some e)).
Proof.
  intros notNumber. subst notNumber.
  pose proof (assert_number_outcomes PrimFloat.zero (fun f => f)
                (fst (getProperty c maxStationCurrent s))) as [Hmax Hmax'].
  pose proof (assert_number_outcomes false (PrimFloat.ltb (float64 switchOffCurrent))
                (fst (getProperty c maxStationCurrent s))) as [Hen Hen'].
  pose proof (assert_number_outcomes PrimFloat.zero (fun f => f)
                (fst (getProperty c activePowerTotal s))) as [Hpow Hpow'].
  pose proof (assert_number_outcomes PrimFloat.zero (fun f => PrimFloat.div f 1000)
                (fst (getProperty c meterReadingSocket1 s))) as [Hen3 Hen3'].
  assert (E1 : fst (GetMaxCurrent c s)
               = match snd (fst (getProperty c maxStationCurrent s)) with
                 | Some e => Returns (PrimFloat.zero, Some e)
                 | None =>
                     match fst (fst (getProperty c maxStationCurrent s)) with
                     | Float64 f => Returns (f, None)
                     | _ => Panics "interface conversion: interface {} is not float64"
                     end
                 end)
    by (rewrite GetMaxCurrent_unfold; reflexivity).
  assert (E2 : fst (Enabled c s)
               = match snd (fst (getProperty c maxStationCurrent s)) with
                 | Some e => Returns (false, Some e)
                 | None =>
                     match fst (fst (getProperty c maxStationCurrent s)) with
                     | Float64 f => Returns (PrimFloat.ltb (float64 switchOffCurrent) f, None)
                     | _ => Panics "interface conversion: interface {} is not float64"
                     end
                 end).
  { rewrite Enabled_unfold. unfold Enabled_of. simpl.
    destruct (getProperty c maxStationCurrent s) as [[v [e | ]] s']; reflexivity. }
  assert (E3 : fst (CurrentPower c s)
               = match snd (fst (getProperty c activePowerTotal s)) with
                 | Some e => Returns (PrimFloat.zero, Some e)
                 | None =>
                     match fst (fst (getProperty c activePowerTotal s)) with
                     | Float64 f => Returns (f, None)
                     | _ => Panics "interface conversion: interface {} is not float64"
                     end
                 end).
  { unfold CurrentPower, bind, ret.
    destruct (getProperty c activePowerTotal s) as [[v [e | ]] s']; simpl;
      [ reflexivity | destruct v; reflexivity ]. }
  assert (E4 : fst (TotalEnergy c s)
               = match snd (fst (getProperty c meterReadingSocket1 s)) with
                 | Some e => Returns (PrimFloat.zero, Some e)
                 | None =>
                     match fst (fst (getProperty c meterReadingSocket1 s)) with
                     | Float64 f => Returns (PrimFloat.div f 1000, None)
                     | _ => Panics "interface conversion: interface {} is not float64"
                     end
                 end).
  { unfold TotalEnergy, bind, ret.
    destruct (getProperty c meterReadingSocket1 s) as [[v [e | ]] s']; simpl;
      [ reflexivity | destruct v; reflexivity ]. }
  rewrite E1, E2, E3, E4.
  split; [ exact Hmax | ]. split; [ exact Hen | ].
  split; [ exact Hpow | ]. split; [ exact Hen3 | ].
  split; [ | split ].
  - intros e He. split; [ exact (Hmax' e He) | exact (Hen' e He) ].
  - exact Hpow'.
  - exact Hen3'.
Qed.

End MoreDecodingProperties.

(** ** Properties of the construction *)

Section ConstructionProperties.

Context {D : Device}.

Local Open Scope list_scope.

(** Trimming slashes removes a run of slashes from the end and nothing else,
    and what is left does not end with a slash. *)
Lemma TrimRight_slash (s : string) :
  exists n,
    s = (TrimRight s "/" ++ repeatChar "/" n)%string /\
    endsWith (TrimRight s "/") "/" = false.
Proof.
  induction s as [ | ch rest [n [Hrest Hend]]]; simpl.
  - exists O. auto.
  - destruct (TrimRight rest "/") as [ | a kept] eqn:Htrim.
    + simpl in Hrest. unfold inCutset. simpl. rewrite orb_false_r.
      destruct (Ascii.eqb_spec ch "/") as [-> | Hne].
      * exists (S n). simpl. rewrite <- Hrest. auto.
      * exists n. simpl. rewrite <- Hrest. split; [ reflexivity | ].
        apply Ascii.eqb_neq. exact Hne.
    + exists n. split.
      * simpl. f_equal. exact Hrest.
      * exact Hend.
Qed.

(** X20. [NewAlfenHttp] starts from an empty memo and sends exactly one
    request, the login with the given password at the trimmed address.  It
    returns a client exactly when that login succeeds, and otherwise the error
    of the login and no client. *)
Theorem NewAlfenHttp_outcome (address pass : string) (s : St) :
  let c := {| uri := TrimRight address "/"; password := pass |} in
  let start := snd (setCache emptyCache s) in
  snd (NewAlfenHttp address pass s) = snd (login c start) /\
  trace (snd (NewAlfenHttp address pass s)) = trace s ++ [login_request c] /\
  cache (snd (NewAlfenHttp address pass s)) = emptyCache /\
  (fst (login c start) = None -> fst (NewAlfenHttp address pass s) = inl c) /\
  (forall e, fst (login c start) = Some e -> fst (NewAlfenHttp address pass s) = inr e).
Proof.
  intros c start. subst c start. unfold NewAlfenHttp, bind, ret. simpl.
  set (c := {| uri := TrimRight address "/"; password := pass |}).
  set (start := {| world := world s; trace := trace s; cache := emptyCache;
                   clock := clock s |}).
  pose proof (login_trace c start) as Ht.
  pose proof (login_keeps c start) as [Hc _].
  destruct (login c start) as [[e | ] s']; simpl in *;
    repeat split; try assumption; try discriminate.
  intros e' He. injection He as <-. reflexivity.
Qed.

(** X21. The client that [NewAlfenHttp] returns carries the given password
    and the given address without its trailing slashes: the address is the
    client's [uri] followed by slashes only, and the [uri] does not end with a
    slash. *)
Theorem NewAlfenHttp_trims_address
    (address pass : string) (s : St) (c : AlfenHttp) :
  fst (NewAlfenHttp address pass s) = inl c ->
  password c = pass /\
  endsWith (uri c) "/" = false /\
  exists n, address = (uri c ++ repeatChar "/" n)%string.
Proof.
  unfold NewAlfenHttp, bind, ret. simpl.
  destruct (login _ _) as [[e | ] s']; simpl; [ discriminate | ].
  intros H. injection H as <-. simpl.
  destruct (TrimRight_slash address) as [n [Haddr Hend]].
  split; [ reflexivity | split; [ exact Hend | ] ].
  exists n. exact Haddr.
Qed.

End ConstructionProperties.

(** ** Further runs on the scripted device *)

(** A read answered 500 comes back as it is, after one request. *)
Lemma passes_through_witness :
  ensureAuthenticated (D := scripted) wallbox (httpDo bulkRead) (fresh [serverError])
  = (serverError, snd (httpDo (D := scripted) bulkRead (fresh [serverError]))) /\
  trace (snd (ensureAuthenticated (D := scripted) wallbox (httpDo bulkRead)
                (fresh [serverError])))
  = [bulkRead].
Proof.
  assert (Hnot : forall resp, serverError = inl resp -> StatusCode resp <> 401).
  { intros resp Heq. injection Heq as <-. discriminate. }
  pose proof (ensureAuthenticated_passes_through (D := scripted)
                wallbox (httpDo bulkRead) (fresh [serverError])
                (snd (httpDo (D := scripted) bulkRead (fresh [serverError])))
                serverError eq_refl Hnot) as Hcall.
  split; [ exact Hcall | rewrite Hcall; reflexivity ].
Defined.

(** The write is answered 401, the login succeeds, the repeated write is
    answered 401 again: the write reports success. *)
Lemma setProperty_succeeds_iff_witness :
  fst (setProperty (D := scripted) wallbox maxStationCurrent "16"
         (fresh [unauthorized; ok200 ""; unauthorized]))
  = None.
Proof.
  apply (setProperty_succeeds_iff (D := scripted) wallbox maxStationCurrent "16"
           (fresh [unauthorized; ok200 ""; unauthorized])).
  exists {| StatusCode := 401; Status_line := "401 Unauthorized"; Body := inl "" |}.
  split; [ reflexivity | right ].
  split; [ reflexivity | split; [ reflexivity | ] ].
  exists {| StatusCode := 401; Status_line := "401 Unauthorized"; Body := inl "" |}.
  reflexivity.
Defined.


(** 401, login, 401 again: the bulk read fails with the second status line. *)
Lemma getProperties_still_unauthorized_witness :
  fst (getProperties (D := scripted) wallbox (fresh [unauthorized; ok200 ""; unauthorized]))
  = inr (ErrorGettingProperties "401 Unauthorized").
Proof.
  destruct (getProperties_still_unauthorized (D := scripted) wallbox
              (fresh [unauthorized; ok200 ""; unauthorized])
              (snd (httpDo (D := scripted) bulkRead
                      (fresh [unauthorized; ok200 ""; unauthorized])))
              (snd (login (D := scripted) wallbox
                      (snd (httpDo (D := scripted) bulkRead
                              (fresh [unauthorized; ok200 ""; unauthorized])))))
              (snd (getProperties (D := scripted) wallbox
                      (fresh [unauthorized; ok200 ""; unauthorized])))
              {| StatusCode := 401; Status_line := "401 Unauthorized"; Body := inl "" |}
              {| StatusCode := 401; Status_line := "401 Unauthorized"; Body := inl "" |}
              eq_refl eq_refl eq_refl eq_refl eq_refl) as [Hcall _].
  rewrite Hcall. reflexivity.
Defined.

(** The state is the second property of the snapshot: it is found after the
    current limit has been skipped. *)
Lemma getProperty_first_match_witness :
  fst (getProperty (D := scripted) wallbox state (fresh [ok200 "charging"]))
  = (Float64 11, None).
Proof.
  assert (Hskip : Forall (fun q => Id q <> state) [numberProperty maxStationCurrent 16]).
  { constructor; [ discriminate | constructor ]. }
  rewrite (getProperty_first_match (D := scripted) wallbox state
             (fresh [ok200 "charging"])
             (snd (getPropertiesG (D := scripted) wallbox (fresh [ok200 "charging"])))
             chargingSnapshot
             [numberProperty maxStationCurrent 16] [] (numberProperty state 11)
             eq_refl eq_refl Hskip eq_refl).
  reflexivity.
Defined.

(** The snapshot has no active power: the read fails with the id and the
    snapshot. *)
Lemma getProperty_not_found_witness :
  fst (getProperty (D := scripted) wallbox activePowerTotal (fresh [ok200 "charging"]))
  = (Str "", Some (UnableToGetProperty activePowerTotal chargingSnapshot)).
Proof.
  destruct (getProperty_not_found_iff (D := scripted) wallbox activePowerTotal
              (fresh [ok200 "charging"])
              (snd (getPropertiesG (D := scripted) wallbox (fresh [ok200 "charging"])))
              chargingSnapshot eq_refl) as [_ [Hiff _]].
  apply Hiff. repeat (constructor; [ discriminate | ]). constructor.
Defined.

(** Six ampere read as enabled, five as switched off. *)
Lemma Enabled_after_MaxCurrent_witness :
  Enabled_of (Float64 (float64 6)) None = Returns (true, None) /\
  Enabled_of (Float64 (float64 5)) None = Returns (false, None).
Proof.
  split.
  - exact (Enabled_after_MaxCurrent 6 ltac:(lia)).
  - exact (Enabled_after_MaxCurrent 5 ltac:(lia)).
Defined.

(** An address with two trailing slashes gives the client without them. *)
Lemma NewAlfenHttp_trims_address_witness :
  password wallbox = "secret" /\
  endsWith (uri wallbox) "/" = false /\
  exists n, "https://wallbox//" = (uri wallbox ++ repeatChar "/" n)%string.
Proof.
  exact (NewAlfenHttp_trims_address (D := scripted) "https://wallbox//" "secret"
           (fresh [ok200 ""]) wallbox eq_refl).
Defined.

(** The device refuses every connection: [Shutdown] sends the enabling write,
    the write of 16 A and the logout, and no write of 3 phases. *)
Lemma Shutdown_without_phase_write :
  trace (snd (Shutdown (D := scripted) wallbox (fresh [])))
  = [setProperty_request wallbox loadBalancingEnablePhaseSwitching statusOn;
     write16A;
     logout_request wallbox] /\
  ~ In (setProperty_request wallbox installationMaxAllowedPhases "3")
       (trace (snd (Shutdown (D := scripted) wallbox (fresh [])))).
Proof.
  split; [ reflexivity | ].
  simpl. intros [H | [H | [H | []]]]; discriminate H.
Qed.

(** The session has expired and the login is refused with 500: again no write
    of 3 phases, although the device answers the two later requests. *)
Lemma Shutdown_without_phase_write_after_401 :
  trace (snd (Shutdown (D := scripted) wallbox
                (fresh [unauthorized; serverError; ok200 ""; ok200 ""])))
  = [setProperty_request wallbox loadBalancingEnablePhaseSwitching statusOn;
     login_request wallbox;
     write16A;
     logout_request wallbox].
Proof. reflexivity. Qed.

(** With only the L1 current in the snapshot, [Currents] reports the missing
    L2 and makes no further read: the single bulk read is all that was sent. *)
Lemma Currents_all_or_nothing_witness :
  Currents (D := scriptedPhases) wallbox (freshPhases [ok200 "phase1"])
  = (Returns (PrimFloat.zero, PrimFloat.zero, PrimFloat.zero,
              Some (UnableToGetProperty currentL2Socket1 phase1Snapshot)),
     snd (getProperty (D := scriptedPhases) wallbox currentL2Socket1
            (snd (getProperty (D := scriptedPhases) wallbox currentL1Socket1
                    (freshPhases [ok200 "phase1"]))))).
Proof.
  destruct (Currents_all_or_nothing (D := scriptedPhases) wallbox
              (freshPhases [ok200 "phase1"])) as [_ [Hsecond _]].
  exact (Hsecond (Float64 6)
           (snd (getProperty (D := scriptedPhases) wallbox currentL1Socket1
                   (freshPhases [ok200 "phase1"])))
           (Str "")
           (UnableToGetProperty currentL2Socket1 phase1Snapshot)
           (snd (getProperty (D := scriptedPhases) wallbox currentL2Socket1
                   (snd (getProperty (D := scriptedPhases) wallbox currentL1Socket1
                           (freshPhases [ok200 "phase1"])))))
           eq_refl eq_refl).
Defined.

(** The same for the voltages. *)
Lemma Voltages_all_or_nothing_witness :
  Voltages (D := scriptedPhases) wallbox (freshPhases [ok200 "phase1"])
  = (Returns (PrimFloat.zero, PrimFloat.zero, PrimFloat.zero,
              Some (UnableToGetProperty voltageL2Socket1 phase1Snapshot)),
     snd (getProperty (D := scriptedPhases) wallbox voltageL2Socket1
            (snd (getProperty (D := scriptedPhases) wallbox voltageL1Socket1
                    (freshPhases [ok200 "phase1"]))))).
Proof.
  destruct (Voltages_all_or_nothing (D := scriptedPhases) wallbox
              (freshPhases [ok200 "phase1"])) as [_ [Hsecond _]].
  exact (Hsecond (Float64 230)
           (snd (getProperty (D := scriptedPhases) wallbox voltageL1Socket1
                   (freshPhases [ok200 "phase1"])))
           (Str "")
           (UnableToGetProperty voltageL2Socket1 phase1Snapshot)
           (snd (getProperty (D := scriptedPhases) wallbox voltageL2Socket1
                   (snd (getProperty (D := scriptedPhases) wallbox voltageL1Socket1
                           (freshPhases [ok200 "phase1"])))))
           eq_refl eq_refl).
Defined.
